(** * time-since: the timers, the pollers and the display controller of
      [src/main.cpp], as a shallow embedding.

    The program is single threaded.  Its objects become records, its
    member functions become functions that take the object ([self]) and
    return the updated object, and every call that leaves the program
    ([time(nullptr)], [WiFi.status()], the HTTP client, [digitalRead],
    the LCD) goes through a small state-and-failure monad over a [World]
    that answers those calls.

    Libraries the program links against but does not contain (ArduinoJson,
    the C library's [strptime]/[mktime]) are interfaces here (type classes);
    a small reference instance of each is given so that every definition
    can be run on concrete inputs. *)

From Stdlib Require Import ZArith List String Ascii Bool Lia.
From Stdlib Require Import SpecFloat DecimalString.
Import ListNotations.

Local Open Scope string_scope.
Local Open Scope Z_scope.

(* ================================================================== *)
(** * Machine types *)
(* ================================================================== *)

(** [time_t]: epoch seconds.  The program never relies on its width. *)
Definition time_t := Z.

(** [float] (binary32) values; only the comparison with [0.0f] is used. *)
Definition float := spec_float.

Definition zero_f : float := S754_zero false.

(** [x > 0.0f] : false on NaN, on both zeros and on negative values. *)
Definition gt_zero (x : float) : bool := SFltb zero_f x.

(** Conversion of an [int] to [uint8_t] (assignment to [currentIndex]). *)
Definition to_uint8 (z : Z) : Z := z mod 256.

Definition INT32_MIN : Z := - 2147483648.
Definition INT32_MAX : Z := 2147483647.

Definition HIGH : bool := true.
Definition LOW : bool := false.

Definition LCD_SDA : Z := 13.
Definition LCD_SCL : Z := 14.
Definition UP_BUTTON : Z := 32.
Definition DOWN_BUTTON : Z := 33.
Definition ACTION_BUTTON : Z := 15.
Definition BUTTON_DEBOUNCE_DELAY : Z := 50.

Definition HTTP_CODE_OK : Z := 200.

(** [strlen] of a C string. *)
Definition strlen (s : string) : Z := Z.of_nat (String.length s).

(* ================================================================== *)
(** * The C library: [struct tm], [strptime], [mktime] *)
(* ================================================================== *)

Record tm : Type := mk_tm {
  tm_sec : Z;
  tm_min : Z;
  tm_hour : Z;
  tm_mday : Z;
  tm_mon : Z;
  tm_year : Z;
  tm_wday : Z;
  tm_yday : Z;
  tm_isdst : Z
}.

(** [struct tm tm = {0};] and [struct tm tm = {};] *)
Definition tm_zero : tm := mk_tm 0 0 0 0 0 0 0 0 0.

(** [strptime s fmt tm0] returns whether the C function's result is not
    [NULL], and the [struct tm] it leaves behind (the fields it parsed
    written over [tm0]).  [mktime] reads the [struct tm] as local time. *)
Class Libc : Type := {
  strptime : string -> string -> tm -> bool * tm;
  mktime : tm -> time_t
}.

(* ================================================================== *)
(** * ArduinoJson: what the program asks of a decoded document *)
(* ================================================================== *)

Class ArduinoJson : Type := {
  JsonVariant : Type;
  (** [v["key"]] *)
  member : JsonVariant -> string -> JsonVariant;
  (** [v[i]] *)
  element : JsonVariant -> nat -> JsonVariant;
  (** a variant used as a condition *)
  as_bool : JsonVariant -> bool;
  (** [const char *s = v;] with [None] for the null pointer *)
  as_cstr : JsonVariant -> option string;
  (** [v.is<float>()] *)
  is_float : JsonVariant -> bool;
  (** [float x = v;] *)
  as_float : JsonVariant -> float;
  (** [v.is<JsonArray>()] *)
  is_JsonArray : JsonVariant -> bool;
  (** [JsonArray a = v; a.size()] *)
  size : JsonVariant -> nat
}.

Declare Scope json_scope.
Delimit Scope json_scope with json.
Notation "v .[ i ]" := (element v i) (at level 1, left associativity,
  format "v .[ i ]") : json_scope.
Notation "v .< k >" := (member v k) (at level 1, k at level 0, left associativity,
  format "v .< k >") : json_scope.
Local Open Scope json_scope.

(* ================================================================== *)
(** * The program *)
(* ================================================================== *)

Section Program.

Context {J : ArduinoJson} {C : Libc}.

(** ** The world outside the program *)

(** One HTTP request as the program sees it: the result of
    [http.begin(client, url)], the code returned by [http.GET()], and what
    [deserializeJson] makes of [http.getString()] ([None] when it reports
    a [DeserializationError]).  The URL itself is not modelled: the
    exchange is the answer to the URL the program built. *)
Record HttpExchange : Type := mk_exchange {
  begin_ok : bool;
  GET : Z;
  deserializeJson : option JsonVariant
}.

Inductive LcdOp : Type :=
| lcd_clear
| lcd_setCursor (col row : Z)
| lcd_print (text : string).

(** The answers of the outside world, by number of the call, together
    with how many calls of each kind were made so far, and what was sent
    to the display.  [Serial] output and [delay] leave no trace here: time
    that passes shows in the later answers of [clock]. *)
Record World : Type := mk_world {
  clock : nat -> time_t;
  clock_reads : nat;
  wifi : nat -> bool;
  wifi_reads : nat;
  network : nat -> HttpExchange;
  requests : nat;
  pins : nat -> Z -> bool;
  pin_reads : nat;
  lcd : list LcdOp
}.

(** ** Computations: a result and the world after, a C++ exception, or
    undefined behaviour (null pointer handed to the C library, write or
    read past an array, division by zero, out of range conversion). *)
Inductive Outcome (A : Type) : Type :=
| Done (a : A) (w : World)
| Thrown (what : string)
| Undefined.

Arguments Done {A} a w.
Arguments Thrown {A} what.
Arguments Undefined {A}.

Definition M (A : Type) : Type := World -> Outcome A.

Definition ret {A} (a : A) : M A := fun w => Done a w.

Definition bind {A B} (c : M A) (k : A -> M B) : M B :=
  fun w => match c w with
           | Done a w' => k a w'
           | Thrown what => Thrown what
           | Undefined => Undefined
           end.

Notation "x <- c ;; k" := (bind c (fun x => k))
  (at level 61, c at next level, right associativity).
Notation "c ;;; k" := (bind c (fun _ => k))
  (at level 61, right associativity).

Definition throw {A} (what : string) : M A := fun _ => Thrown what.

Definition undefined {A} : M A := fun _ => Undefined.

(** [time(nullptr)] *)
Definition time_nullptr : M time_t :=
  fun w => Done (clock w (clock_reads w))
                (mk_world (clock w) (S (clock_reads w)) (wifi w) (wifi_reads w)
                          (network w) (requests w) (pins w) (pin_reads w) (lcd w)).

(** [WiFi.status() == WL_CONNECTED] *)
Definition WiFi_connected : M bool :=
  fun w => Done (wifi w (wifi_reads w))
                (mk_world (clock w) (clock_reads w) (wifi w) (S (wifi_reads w))
                          (network w) (requests w) (pins w) (pin_reads w) (lcd w)).

(** [http.begin(client, url)], with the rest of the exchange at hand. *)
Definition http_begin : M HttpExchange :=
  fun w => Done (network w (requests w))
                (mk_world (clock w) (clock_reads w) (wifi w) (wifi_reads w)
                          (network w) (S (requests w)) (pins w) (pin_reads w) (lcd w)).

(** [digitalRead(pin)] *)
Definition digitalRead (pin : Z) : M bool :=
  fun w => Done (pins w (pin_reads w) pin)
                (mk_world (clock w) (clock_reads w) (wifi w) (wifi_reads w)
                          (network w) (requests w) (pins w) (S (pin_reads w)) (lcd w)).

Definition lcd_do (op : LcdOp) : M unit :=
  fun w => Done tt
                (mk_world (clock w) (clock_reads w) (wifi w) (wifi_reads w)
                          (network w) (requests w) (pins w) (pin_reads w)
                          (lcd w ++ [op])).

(** [delay(ms)] *)
Definition delay (ms : Z) : M unit := ret tt.

(** [strcpy(dst, src)] into an array of [cap] chars; the result is the
    C string then held by [dst]. *)
Definition strcpy (cap : Z) (src : string) : M string :=
  if cap <? strlen src + 1 then undefined else ret src.

(** ** class Timer *)

Record Timer : Type := mk_Timer {
  name : string;
  lastTriggerTime : time_t
}.

(** [Timer(displayName, initialTime)] *)
Definition Timer_new (displayName : string) (initialTime : time_t) : Timer :=
  mk_Timer displayName initialTime.

(** [difftime(a, b)]: the difference of two epochs, exact on the values
    a clock produces. *)
Definition difftime (a b : time_t) : Z := a - b.

(** [Timer::timeSince]: the [double] is converted to [int32_t], which is
    defined only inside the range of [int32_t]. *)
Definition timeSince (self : Timer) (currentTime : time_t) : M Z :=
  let d := difftime currentTime (lastTriggerTime self) in
  if (INT32_MIN <=? d) && (d <=? INT32_MAX) then ret d else undefined.

(** [Timer::trigger] *)
Definition trigger (self : Timer) (triggerTime : time_t) : Timer :=
  mk_Timer (name self) triggerTime.

Definition getLastTriggerTime (self : Timer) : time_t := lastTriggerTime self.

Definition getDisplayName (self : Timer) : string := name self.

(** ** class ButtonTimer : public Timer *)

Definition ButtonTimer_new (displayName : string) (initialTime : time_t) : Timer :=
  Timer_new displayName initialTime.

(** [ButtonTimer::handleButtonPress] *)
Definition ButtonTimer_handleButtonPress (self : Timer) (currentTime : time_t)
  : M (bool * Timer) :=
  ret (true, trigger self currentTime).

(** ** class PollingTimer : public Timer, and its three subclasses *)

(** The data members a subclass adds. *)
Inductive Subclass : Type :=
| GitHub (githubUser : string)
| Bluesky (handle : string)
| Weather (latitude longitude currentTemp : float).

Record PollingTimer : Type := mk_PollingTimer {
  super : Timer;
  lastPollTime : time_t;
  pollingInterval : Z;
  derived : Subclass
}.

(** [PollingTimer(displayName, interval, initialTime)] *)
Definition PollingTimer_new (displayName : string) (interval : Z)
    (initialTime : time_t) (d : Subclass) : PollingTimer :=
  mk_PollingTimer (Timer_new displayName initialTime) initialTime interval d.

(** [trigger] called on a polling timer (inherited from [Timer]). *)
Definition trigger_p (self : PollingTimer) (triggerTime : time_t) : PollingTimer :=
  mk_PollingTimer (trigger (super self) triggerTime) (lastPollTime self)
                  (pollingInterval self) (derived self).

Definition set_lastPollTime (self : PollingTimer) (t : time_t) : PollingTimer :=
  mk_PollingTimer (super self) t (pollingInterval self) (derived self).

Definition set_derived (self : PollingTimer) (d : Subclass) : PollingTimer :=
  mk_PollingTimer (super self) (lastPollTime self) (pollingInterval self) d.

(** [PollingTimer::shouldPoll] *)
Definition shouldPoll (self : PollingTimer) (currentTime : time_t) : bool :=
  pollingInterval self <=? difftime currentTime (lastPollTime self).

Definition MAX_USERNAME_LENGTH : Z := 39.
Definition MAX_HANDLE_LENGTH : Z := 253.
Definition GitHub_DEFAULT_POLL_INTERVAL : Z := 300.
Definition Bluesky_DEFAULT_POLL_INTERVAL : Z := 300.
Definition Weather_DEFAULT_POLL_INTERVAL : Z := 900.

(** [GitHubPollingTimer::pollImpl] *)
Definition GitHub_pollImpl (self : PollingTimer) : M (bool * PollingTimer) :=
  connected <- WiFi_connected ;;
  if negb connected then ret (false, self) else
  http <- http_begin ;;
  if negb (begin_ok http) then ret (false, self) else
  let httpCode := GET http in
  if httpCode =? HTTP_CODE_OK then
    match deserializeJson http with
    | Some doc =>
        if as_bool doc.[0].<"created_at"> then
          match as_cstr doc.[0].<"created_at"> with
          | Some dateStr =>
              let '(parsed, tm) := strptime dateStr "%Y-%m-%dT%H:%M:%S" tm_zero in
              if parsed then
                let eventTime := mktime tm in
                currentTime <- time_nullptr ;;
                ret (true, trigger_p self eventTime)
              else ret (false, self)
          | None => undefined
          end
        else ret (false, self)
    | None => ret (false, self)
    end
  else ret (false, self).

(** [BlueskyPollingTimer::pollImpl] *)
Definition Bluesky_pollImpl (self : PollingTimer) : M (bool * PollingTimer) :=
  connected <- WiFi_connected ;;
  if negb connected then ret (false, self) else
  http <- http_begin ;;
  if negb (begin_ok http) then ret (false, self) else
  let httpCode := GET http in
  if httpCode =? HTTP_CODE_OK then
    match deserializeJson http with
    | Some doc =>
        if as_bool doc.<"records">.[0].<"value">.<"createdAt"> then
          match as_cstr doc.<"records">.[0].<"value">.<"createdAt"> with
          | Some dateStr =>
              let '(parsed, tm) := strptime dateStr "%Y-%m-%dT%H:%M:%S" tm_zero in
              if parsed then
                let eventTime := mktime tm in
                ret (true, trigger_p self eventTime)
              else ret (false, self)
          | None => undefined
          end
        else ret (false, self)
    | None => ret (false, self)
    end
  else ret (false, self).

(** The assignment [currentTemp = ...] in a weather timer. *)
Definition set_currentTemp (self : PollingTimer) (t : float) : PollingTimer :=
  match derived self with
  | Weather latitude longitude _ => set_derived self (Weather latitude longitude t)
  | _ => self
  end.

(** [WeatherPollingTimer::pollImpl] *)
Definition Weather_pollImpl (self : PollingTimer) : M (bool * PollingTimer) :=
  connected <- WiFi_connected ;;
  if negb connected then ret (false, self) else
  http <- http_begin ;;
  if negb (begin_ok http) then ret (false, self) else
  let httpCode := GET http in
  if httpCode =? HTTP_CODE_OK then
    match deserializeJson http with
    | Some doc =>
        if is_float doc.<"current">.<"temperature_2m"> then
          let currentTemp := as_float doc.<"current">.<"temperature_2m"> in
          let self := set_currentTemp self currentTemp in
          if gt_zero currentTemp then
            now <- time_nullptr ;;
            ret (true, trigger_p self now)
          else ret (true, self)
        else ret (false, self)
    | None => ret (false, self)
    end
  else ret (false, self).

(** The virtual call [pollImpl()]. *)
Definition pollImpl (self : PollingTimer) : M (bool * PollingTimer) :=
  match derived self with
  | GitHub _ => GitHub_pollImpl self
  | Bluesky _ => Bluesky_pollImpl self
  | Weather _ _ _ => Weather_pollImpl self
  end.

(** [PollingTimer::poll] *)
Definition poll (self : PollingTimer) : M (bool * PollingTimer) :=
  r <- pollImpl self ;;
  let '(success, self) := r in
  if success then
    t <- time_nullptr ;;
    ret (success, set_lastPollTime self t)
  else ret (success, self).

(** [PollingTimer::handleButtonPress] *)
Definition PollingTimer_handleButtonPress (self : PollingTimer)
    (currentTime : time_t) : M (bool * PollingTimer) :=
  r <- poll self ;;
  let '(polled, self) := r in
  if polled then ret (true, self) else ret (false, self).

(** [PollingTimer::checkPoll] *)
Definition PollingTimer_checkPoll (self : PollingTimer) (currentTime : time_t)
  : M (bool * PollingTimer) :=
  if shouldPoll self currentTime then poll self else ret (false, self).

(** [GitHubPollingTimer(displayName, username, pollInterval, initialTime)] *)
Definition GitHubPollingTimer_new (displayName username : string)
    (pollInterval : Z) (initialTime : time_t) : M PollingTimer :=
  let self := PollingTimer_new displayName pollInterval initialTime (GitHub "") in
  if MAX_USERNAME_LENGTH <? strlen username then
    throw "GitHub username too long"
  else
    githubUser <- strcpy (MAX_USERNAME_LENGTH + 1) username ;;
    let self := set_derived self (GitHub githubUser) in
    r <- poll self ;;
    ret (snd r).

(** [BlueskyPollingTimer(displayName, userHandle, pollInterval, initialTime)].
    The length test reads the member array [handle], which nothing has
    written yet: [handle0] is the C string found in it when the constructor
    body starts. *)
Definition BlueskyPollingTimer_new (handle0 : string)
    (displayName userHandle : string)
    (pollInterval : Z) (initialTime : time_t) : M PollingTimer :=
  let self := PollingTimer_new displayName pollInterval initialTime (Bluesky handle0) in
  let handle := handle0 in
  if MAX_HANDLE_LENGTH <? strlen handle then
    throw "Bluesky handle too long"
  else
    handle <- strcpy (MAX_HANDLE_LENGTH + 1) userHandle ;;
    let handle := substring 0 (Z.to_nat MAX_HANDLE_LENGTH) handle in
    let self := set_derived self (Bluesky handle) in
    r <- poll self ;;
    ret (snd r).

(** The loop of [findLastAboveZero]: [n] is [i + 1], so the loop runs
    from [i = times.size() - 1] down to [i = 0]. *)
Fixpoint searchFromMostRecent (times temps : JsonVariant) (n : nat)
  : M (option time_t) :=
  match n with
  | O => ret None
  | S i =>
      let temp := as_float temps.[i] in
      let timeStr := as_cstr times.[i] in
      if gt_zero temp then
        match timeStr with
        | Some timeStr =>
            let '(_, tm) := strptime timeStr "%Y-%m-%dT%H:%M" tm_zero in
            ret (Some (mktime tm))
        | None => undefined
        end
      else searchFromMostRecent times temps i
  end.

(** [WeatherPollingTimer::findLastAboveZero].  The two dates formatted
    with [gmtime_r] and [strftime] only go into the URL of the request. *)
Definition findLastAboveZero (self : PollingTimer) : M time_t :=
  now <- time_nullptr ;;
  let startTime := now - (30 * 24 * 60 * 60) in
  http <- http_begin ;;
  if negb (begin_ok http) then ret now else
  let httpCode := GET http in
  let lastAboveZero := now in
  if httpCode =? HTTP_CODE_OK then
    match deserializeJson http with
    | Some doc =>
        if is_JsonArray doc.<"hourly">.<"time"> &&
           is_JsonArray doc.<"hourly">.<"temperature_2m"> then
          let times := doc.<"hourly">.<"time"> in
          let temps := doc.<"hourly">.<"temperature_2m"> in
          found <- searchFromMostRecent times temps (size times) ;;
          match found with
          | Some lastAboveZero => ret lastAboveZero
          | None => ret startTime
          end
        else ret lastAboveZero
    | None => ret lastAboveZero
    end
  else ret lastAboveZero.

(** [WeatherPollingTimer(displayName, lat, lon, pollInterval)] *)
Definition WeatherPollingTimer_new (displayName : string) (lat lon : float)
    (pollInterval : Z) : M PollingTimer :=
  initialTime <- time_nullptr ;;
  let self := PollingTimer_new displayName pollInterval initialTime
                               (Weather lat lon zero_f) in
  lastAboveZero <- findLastAboveZero self ;;
  ret (trigger_p self lastAboveZero).

(** ** The objects behind [Timer *] and the virtual calls on them *)

Inductive AnyTimer : Type :=
| a_ButtonTimer (t : Timer)
| a_PollingTimer (p : PollingTimer).

(** The [Timer] part of any timer. *)
Definition as_Timer (t : AnyTimer) : Timer :=
  match t with
  | a_ButtonTimer t => t
  | a_PollingTimer p => super p
  end.

Definition isPollable (t : AnyTimer) : bool :=
  match t with
  | a_ButtonTimer _ => false
  | a_PollingTimer _ => true
  end.

Definition checkPoll (t : AnyTimer) (currentTime : time_t) : M (bool * AnyTimer) :=
  match t with
  | a_ButtonTimer b => ret (false, a_ButtonTimer b)
  | a_PollingTimer p =>
      r <- PollingTimer_checkPoll p currentTime ;;
      ret (fst r, a_PollingTimer (snd r))
  end.

Definition handleButtonPress (t : AnyTimer) (currentTime : time_t)
  : M (bool * AnyTimer) :=
  match t with
  | a_ButtonTimer b =>
      r <- ButtonTimer_handleButtonPress b currentTime ;;
      ret (fst r, a_ButtonTimer (snd r))
  | a_PollingTimer p =>
      r <- PollingTimer_handleButtonPress p currentTime ;;
      ret (fst r, a_PollingTimer (snd r))
  end.

(** ** class TimerDisplay *)

(** [timers] is the array the pointer [Timer **timers] points to, with
    the timer objects its entries point to; [lastButtonState] is the
    [static] local of [checkButton]. *)
Record TimerDisplay : Type := mk_TimerDisplay {
  timers : list AnyTimer;
  timerCount : Z;
  currentIndex : Z;
  actionButtonPin : Z;
  lastName : string;
  lastSeconds : Z;
  lastButtonState : bool
}.

(** [TimerDisplay(timerArray, count, buttonPin, lcdDisplay)] *)
Definition TimerDisplay_new (timerArray : list AnyTimer) (count : Z)
    (buttonPin : Z) : TimerDisplay :=
  mk_TimerDisplay timerArray count 0 buttonPin "" (-1) HIGH.

Definition set_currentIndex (self : TimerDisplay) (i : Z) : TimerDisplay :=
  mk_TimerDisplay (timers self) (timerCount self) i (actionButtonPin self)
                  (lastName self) (lastSeconds self) (lastButtonState self).

Definition set_lastName (self : TimerDisplay) (n : string) : TimerDisplay :=
  mk_TimerDisplay (timers self) (timerCount self) (currentIndex self)
                  (actionButtonPin self) n (lastSeconds self) (lastButtonState self).

Definition set_lastSeconds (self : TimerDisplay) (n : Z) : TimerDisplay :=
  mk_TimerDisplay (timers self) (timerCount self) (currentIndex self)
                  (actionButtonPin self) (lastName self) n (lastButtonState self).

Definition set_lastButtonState (self : TimerDisplay) (b : bool) : TimerDisplay :=
  mk_TimerDisplay (timers self) (timerCount self) (currentIndex self)
                  (actionButtonPin self) (lastName self) (lastSeconds self) b.

(** Replace entry [i] of a list (a write through [timers[i]]). *)
Fixpoint replace_nth {A} (l : list A) (i : nat) (x : A) : list A :=
  match l, i with
  | [], _ => []
  | _ :: l', O => x :: l'
  | y :: l', S i' => y :: replace_nth l' i' x
  end.

(** The timer object [timers[currentIndex]] after a member call changed it. *)
Definition set_current (self : TimerDisplay) (t : AnyTimer) : TimerDisplay :=
  mk_TimerDisplay (replace_nth (timers self) (Z.to_nat (currentIndex self)) t)
                  (timerCount self) (currentIndex self) (actionButtonPin self)
                  (lastName self) (lastSeconds self) (lastButtonState self).

(** [TimerDisplay::getCurrentTimer]: [timers[currentIndex]]. *)
Definition getCurrentTimer (self : TimerDisplay) : M AnyTimer :=
  match nth_error (timers self) (Z.to_nat (currentIndex self)) with
  | Some t => ret t
  | None => undefined
  end.

(** [TimerDisplay::nextTimer]: the operands are promoted to [int], the
    result is converted back to [uint8_t]. *)
Definition nextTimer (self : TimerDisplay) : M TimerDisplay :=
  if timerCount self =? 0 then undefined else
  ret (set_currentIndex self
         (to_uint8 (Z.rem (currentIndex self + 1) (timerCount self)))).

(** [TimerDisplay::previousTimer] *)
Definition previousTimer (self : TimerDisplay) : M TimerDisplay :=
  if timerCount self =? 0 then undefined else
  ret (set_currentIndex self
         (to_uint8 (Z.rem (currentIndex self - 1) (timerCount self)))).

(** [TimerDisplay::checkButton] *)
Definition checkButton (self : TimerDisplay) (currentTime : time_t)
  : M TimerDisplay :=
  currentButtonState <- digitalRead (actionButtonPin self) ;;
  self <- (if Bool.eqb currentButtonState LOW &&
              Bool.eqb (lastButtonState self) HIGH then
             lcd_do (lcd_setCursor 0 1) ;;;
             lcd_do (lcd_print "                ") ;;;
             t <- getCurrentTimer self ;;
             r <- handleButtonPress t currentTime ;;
             ret (set_current self (snd r))
           else ret self) ;;
  let self := set_lastButtonState self currentButtonState in
  delay BUTTON_DEBOUNCE_DELAY ;;;
  ret self.

(** [printf]'s [%02d] *)
Definition fmt_02d (z : Z) : string :=
  let s := NilZero.string_of_int (Z.to_int z) in
  if strlen s <? 2 then "0" ++ s else s.

(** [TimerDisplay::updateDisplay] *)
Definition updateDisplay (self : TimerDisplay) (now : time_t) : M TimerDisplay :=
  current <- getCurrentTimer self ;;
  let name := getDisplayName (as_Timer current) in
  seconds <- timeSince (as_Timer current) now ;;
  if negb (String.eqb name (lastName self)) || negb (seconds =? lastSeconds self) then
    self <- (if negb (String.eqb name (lastName self)) then
               lcd_do lcd_clear ;;;
               lcd_do (lcd_setCursor 0 0) ;;;
               lcd_do (lcd_print name) ;;;
               ret (set_lastName self name)
             else ret self) ;;
    let hours := Z.quot seconds 3600 in
    let minutes := Z.quot (Z.rem seconds 3600) 60 in
    let secs := Z.rem seconds 60 in
    let timeStr := fmt_02d hours ++ ":" ++ fmt_02d minutes ++ ":" ++ fmt_02d secs in
    let timeStrLen := strlen timeStr in
    let startPos := Z.max 0 (16 - timeStrLen) in
    lcd_do (lcd_setCursor startPos 1) ;;;
    lcd_do (lcd_print timeStr) ;;;
    ret (set_lastSeconds self seconds)
  else ret self.

(** [TimerDisplay::checkNavigationButtons] *)
Definition checkNavigationButtons (self : TimerDisplay) : M TimerDisplay :=
  down <- digitalRead DOWN_BUTTON ;;
  self <- (if Bool.eqb down LOW then
             self <- nextTimer self ;;
             delay BUTTON_DEBOUNCE_DELAY ;;;
             ret self
           else ret self) ;;
  up <- digitalRead UP_BUTTON ;;
  if Bool.eqb up LOW then
    self <- previousTimer self ;;
    delay BUTTON_DEBOUNCE_DELAY ;;;
    ret self
  else ret self.

(** [TimerDisplay::update] *)
Definition update (self : TimerDisplay) (now : time_t) : M TimerDisplay :=
  current <- getCurrentTimer self ;;
  self <- (if isPollable current then
             r <- checkPoll current now ;;
             ret (set_current self (snd r))
           else ret self) ;;
  self <- checkButton self now ;;
  self <- updateDisplay self now ;;
  checkNavigationButtons self.

(** [loop()] run [n] times: each tick reads the clock and updates. *)
Fixpoint loop (n : nat) (timerDisplay : TimerDisplay) : M TimerDisplay :=
  match n with
  | O => ret timerDisplay
  | S n' =>
      now <- time_nullptr ;;
      timerDisplay <- update timerDisplay now ;;
      loop n' timerDisplay
  end.

(** The loop of [initTime]: [now] starts at 0, so the body runs at least
    once; each round waits and reads the clock again.  [fuel] bounds the
    number of rounds; the result tells whether the loop was left. *)
Fixpoint initTime_wait (fuel : nat) : M bool :=
  match fuel with
  | O => ret false
  | S fuel' =>
      delay 500 ;;;
      now <- time_nullptr ;;
      if now <? 24 * 3600 then initTime_wait fuel' else ret true
  end.

(** [initTime()]; [configTime] only configures the SNTP client. *)
Definition initTime (fuel : nat) : M bool := initTime_wait fuel.


End Program.

Arguments Done {J A} a w.
Arguments Thrown {J A} what.
Arguments Undefined {J A}.

(* ================================================================== *)
(** * Reference instances of the two libraries *)
(* ================================================================== *)

(** ** A JSON document tree *)

#[local] Set Warnings "-register-all".

Inductive Json : Type :=
| JNull
| JBool (b : bool)
| JNumber (x : float)
| JString (s : string)
| JArray (items : list Json)
| JObject (fields : list (string * Json)).

Fixpoint lookup_field (fields : list (string * Json)) (k : string) : Json :=
  match fields with
  | [] => JNull
  | (k', v) :: rest => if String.eqb k k' then v else lookup_field rest k
  end.

(** Absent members and elements read as null; null, [false] and the number
    zero are false as a condition; only strings convert to [const char *];
    only numbers are [float]s, everything else reads as [0.0f] (this
    instance does not read numerals inside strings). *)
Definition RefJson : ArduinoJson := {|
  JsonVariant := Json;
  member := fun v k => match v with JObject fields => lookup_field fields k | _ => JNull end;
  element := fun v i => match v with JArray items => nth i items JNull | _ => JNull end;
  as_bool := fun v => match v with
                      | JNull => false
                      | JBool b => b
                      | JNumber x => negb (SFeqb x zero_f)
                      | _ => true
                      end;
  as_cstr := fun v => match v with JString s => Some s | _ => None end;
  is_float := fun v => match v with JNumber _ => true | _ => false end;
  as_float := fun v => match v with JNumber x => x | _ => zero_f end;
  is_JsonArray := fun v => match v with JArray _ => true | _ => false end;
  size := fun v => match v with JArray items => List.length items | _ => O end
|}.

(** [m * 2^e] as a [float], for sample temperatures. *)
Definition float_of (m : Z) (e : Z) : float :=
  match m with
  | Z0 => S754_zero false
  | Zpos p => S754_finite false p e
  | Zneg p => S754_finite true p e
  end.

(** ** [strptime] on fixed-width fields, [mktime] in UTC *)

Definition digit_of (c : ascii) : option Z :=
  let n := Z.of_nat (nat_of_ascii c) in
  if (48 <=? n) && (n <=? 57) then Some (n - 48) else None.

(** Exactly [k] decimal digits. *)
Fixpoint read_digits (k : nat) (acc : Z) (s : string) : option (Z * string) :=
  match k with
  | O => Some (acc, s)
  | S k' =>
      match s with
      | String c s' =>
          match digit_of c with
          | Some d => read_digits k' (10 * acc + d) s'
          | None => None
          end
      | EmptyString => None
      end
  end.

(** One conversion: its width, its range, and the field it writes. *)
Definition conversion (c : ascii) (t : tm)
  : option (nat * Z * Z * (Z -> tm)) :=
  if Ascii.eqb c "Y" then
    Some (4%nat, 0, 9999, fun v => mk_tm (tm_sec t) (tm_min t) (tm_hour t) (tm_mday t)
                                   (tm_mon t) (v - 1900) (tm_wday t) (tm_yday t) (tm_isdst t))
  else if Ascii.eqb c "m" then
    Some (2%nat, 1, 12, fun v => mk_tm (tm_sec t) (tm_min t) (tm_hour t) (tm_mday t)
                                 (v - 1) (tm_year t) (tm_wday t) (tm_yday t) (tm_isdst t))
  else if Ascii.eqb c "d" then
    Some (2%nat, 1, 31, fun v => mk_tm (tm_sec t) (tm_min t) (tm_hour t) v
                                 (tm_mon t) (tm_year t) (tm_wday t) (tm_yday t) (tm_isdst t))
  else if Ascii.eqb c "H" then
    Some (2%nat, 0, 23, fun v => mk_tm (tm_sec t) (tm_min t) v (tm_mday t)
                                 (tm_mon t) (tm_year t) (tm_wday t) (tm_yday t) (tm_isdst t))
  else if Ascii.eqb c "M" then
    Some (2%nat, 0, 59, fun v => mk_tm (tm_sec t) v (tm_hour t) (tm_mday t)
                                 (tm_mon t) (tm_year t) (tm_wday t) (tm_yday t) (tm_isdst t))
  else if Ascii.eqb c "S" then
    Some (2%nat, 0, 60, fun v => mk_tm v (tm_min t) (tm_hour t) (tm_mday t)
                                 (tm_mon t) (tm_year t) (tm_wday t) (tm_yday t) (tm_isdst t))
  else None.

(** The format is followed from left to right; input left over after the
    format is accepted, as [strptime] does. *)
Fixpoint strptime_fixed (fmt : string) (s : string) (t : tm) : bool * tm :=
  match fmt with
  | EmptyString => (true, t)
  | String "%" (String c fmt') =>
      match conversion c t with
      | Some (width, lo, hi, store) =>
          match read_digits width 0 s with
          | Some (v, s') =>
              if (lo <=? v) && (v <=? hi) then strptime_fixed fmt' s' (store v)
              else (false, t)
          | None => (false, t)
          end
      | None => (false, t)
      end
  | String c fmt' =>
      match s with
      | String c' s' => if Ascii.eqb c c' then strptime_fixed fmt' s' t else (false, t)
      | EmptyString => (false, t)
      end
  end.

(** Days from 1970-01-01 to the given civil date. *)
Definition days_from_civil (y m d : Z) : Z :=
  let y' := if m <=? 2 then y - 1 else y in
  let era := y' / 400 in
  let yoe := y' - era * 400 in
  let mp := if 2 <? m then m - 3 else m + 9 in
  let doy := (153 * mp + 2) / 5 + d - 1 in
  let doe := yoe * 365 + yoe / 4 - yoe / 100 + doy in
  era * 146097 + doe - 719468.

Definition mktime_utc (t : tm) : time_t :=
  days_from_civil (tm_year t + 1900) (tm_mon t + 1) (tm_mday t) * 86400
  + tm_hour t * 3600 + tm_min t * 60 + tm_sec t.

Definition RefLibc : Libc := {|
  strptime := fun s fmt t => strptime_fixed fmt s t;
  mktime := mktime_utc
|}.

(** ** Sample worlds and objects *)

(** A world whose clock starts at [t0] and advances one second per
    reading, with WiFi up, every request answered by [ex], and every pin
    at the level [level] gives it. *)
Definition steady_world {J : ArduinoJson} (t0 : time_t) (ex : HttpExchange)
    (level : Z -> bool) : World :=
  mk_world (fun n => t0 + Z.of_nat n) O (fun _ => true) O (fun _ => ex) O
           (fun _ => level) O [].

Definition all_released (pin : Z) : bool := HIGH.

Definition down_held (pin : Z) : bool :=
  if pin =? DOWN_BUTTON then LOW else HIGH.

Definition action_held (pin : Z) : bool :=
  if pin =? ACTION_BUTTON then LOW else HIGH.

Definition ok_exchange (doc : Json) : @HttpExchange RefJson :=
  mk_exchange true HTTP_CODE_OK (Some (doc : @JsonVariant RefJson)).

(** A GitHub events feed whose newest event carries [created_at]. *)
Definition github_feed (created_at : string) : Json :=
  JArray [JObject [("created_at", JString created_at)]].

(** A Bluesky [listRecords] answer whose newest post carries [createdAt]. *)
Definition bluesky_feed (createdAt : string) : Json :=
  JObject [("records",
            JArray [JObject [("value", JObject [("createdAt", JString createdAt)])]])].

(** An Open-Meteo archive answer with the given hourly series. *)
Definition archive_answer (times : list string) (temps : list float) : Json :=
  JObject [("hourly",
            JObject [("time", JArray (map JString times));
                     ("temperature_2m", JArray (map JNumber temps))])].

(** An Open-Meteo forecast answer with the given current temperature. *)
Definition current_answer (temp : float) : Json :=
  JObject [("current", JObject [("temperature_2m", JNumber temp)])].

(** Three hourly samples: -3.0, 0.5 and -1.0 degrees. *)
Definition sample_archive : Json :=
  archive_answer ["2023-12-30T00:00"; "2023-12-30T01:00"; "2023-12-30T02:00"]
                 [float_of (-3) 0; float_of 1 (-1); float_of (-1) 0].

Definition sample_github : PollingTimer :=
  PollingTimer_new "Last GitHub push" 300 1704200000 (GitHub "evjrob").

Definition sample_bluesky : PollingTimer :=
  PollingTimer_new "Last Bsky post" 300 1704200000 (Bluesky "evjrob.bsky.social").

Definition sample_weather : PollingTimer :=
  PollingTimer_new "Last above 0" 900 1704200000
                   (Weather (float_of 49 0) (float_of (-97) 0) zero_f).

Definition four_button_timers : list AnyTimer :=
  [a_ButtonTimer (ButtonTimer_new "one" 1704200000);
   a_ButtonTimer (ButtonTimer_new "two" 1704200000);
   a_ButtonTimer (ButtonTimer_new "three" 1704200000);
   a_ButtonTimer (ButtonTimer_new "four" 1704200000)].

(** What an outcome leaves of the object, if it is a result. *)
Definition result_of {J : ArduinoJson} {A} (o : Outcome A) : option A :=
  match o with
  | Done a _ => Some a
  | _ => None
  end.

(** A string of [n] copies of [c]. *)
Fixpoint repeat_char (n : nat) (c : ascii) : string :=
  match n with
  | O => EmptyString
  | S n' => String c (repeat_char n' c)
  end.

(* ================================================================== *)
(** * Vocabulary of the properties *)
(* ================================================================== *)

Section Vocabulary.

Context {J : ArduinoJson} {C : Libc}.

(** What the world will answer to the next call of each kind. *)
Definition next_time (w : World) : time_t := clock w (clock_reads w).
Definition next_wifi (w : World) : bool := wifi w (wifi_reads w).
Definition next_exchange (w : World) : HttpExchange := network w (requests w).

(** The same world with another wall clock. *)
Definition with_clock (w : World) (clk : nat -> time_t) : World :=
  mk_world clk (clock_reads w) (wifi w) (wifi_reads w) (network w) (requests w)
           (pins w) (pin_reads w) (lcd w).

Definition is_feed (d : Subclass) : bool :=
  match d with
  | GitHub _ | Bluesky _ => true
  | Weather _ _ _ => false
  end.

Definition is_weather (d : Subclass) : bool := negb (is_feed d).

(** The one field each poller reads in a decoded answer. *)
Definition field_read (d : Subclass) (doc : JsonVariant) : JsonVariant :=
  match d with
  | GitHub _ => doc.[0].<"created_at">
  | Bluesky _ => doc.<"records">.[0].<"value">.<"createdAt">
  | Weather _ _ _ => doc.<"current">.<"temperature_2m">
  end.

(** The test each poller makes on that field before using it. *)
Definition field_accepted (d : Subclass) (doc : JsonVariant) : bool :=
  match d with
  | Weather _ _ _ => is_float (field_read d doc)
  | _ => as_bool (field_read d doc)
  end.

(** The failure categories of a check attempt. *)
Inductive FailureCategory : Type :=
| NoTransport
| TransportFailure
| StatusFailure
| DecodeFailure
| TimestampParseFailure.

(** When the next attempt of [self] in [w] fails in category [c]:
    WiFi is down; [http.begin] fails; the status is not 200; the body
    does not decode or lacks the field; the timestamp does not parse. *)
Definition fails_with (c : FailureCategory) (self : PollingTimer) (w : World) : bool :=
  let ex := next_exchange w in
  match c with
  | NoTransport => negb (next_wifi w)
  | TransportFailure => next_wifi w && negb (begin_ok ex)
  | StatusFailure => next_wifi w && begin_ok ex && negb (GET ex =? HTTP_CODE_OK)
  | DecodeFailure =>
      next_wifi w && begin_ok ex && (GET ex =? HTTP_CODE_OK) &&
      match deserializeJson ex with
      | None => true
      | Some doc => negb (field_accepted (derived self) doc)
      end
  | TimestampParseFailure =>
      next_wifi w && begin_ok ex && (GET ex =? HTTP_CODE_OK) &&
      is_feed (derived self) &&
      match deserializeJson ex with
      | None => false
      | Some doc =>
          field_accepted (derived self) doc &&
          match as_cstr (field_read (derived self) doc) with
          | Some dateStr => negb (fst (strptime dateStr "%Y-%m-%dT%H:%M:%S" tm_zero))
          | None => false
          end
      end
  end.

(** When the backfill request of the weather timer's constructor fails:
    [http.begin] fails, the status is not 200, the body does not decode,
    or one of the two hourly series is not an array. *)
Definition backfill_fails (ex : HttpExchange) : bool :=
  negb (begin_ok ex) ||
  negb (GET ex =? HTTP_CODE_OK) ||
  match deserializeJson ex with
  | None => true
  | Some doc =>
      negb (is_JsonArray doc.<"hourly">.<"time"> &&
            is_JsonArray doc.<"hourly">.<"temperature_2m">)
  end.


(** The labels of the timers of a display, in order. *)
Definition labels (d : TimerDisplay) : list string :=
  map (fun t => name (as_Timer t)) (timers d).

(** The two decimal digits of a number below 100. *)
Definition two_digits (z : Z) : string :=
  String (ascii_of_nat (48 + Z.to_nat (z / 10)))
         (String (ascii_of_nat (48 + Z.to_nat (z mod 10))) EmptyString).

(** [HH:MM:SS] for a number of seconds below 100 hours. *)
Definition hh_mm_ss (seconds : Z) : string :=
  two_digits (seconds / 3600) ++ ":" ++ two_digits (seconds mod 3600 / 60)
  ++ ":" ++ two_digits (seconds mod 60).

(** The world after [k] more readings of the clock. *)
Definition after_clock_reads (w : World) (k : nat) : World :=
  mk_world (clock w) (k + clock_reads w) (wifi w) (wifi_reads w) (network w)
           (requests w) (pins w) (pin_reads w) (lcd w).

(** The world after [k] more readings of the pins and with [ops] sent to
    the display. *)
Definition after_pins_and_lcd (w : World) (k : nat) (ops : list LcdOp) : World :=
  mk_world (clock w) (clock_reads w) (wifi w) (wifi_reads w) (network w)
           (requests w) (pins w) (k + pin_reads w) (lcd w ++ ops).


(** [d'] has the timers of [d], with the same labels and kinds, except
    that the timer at position [i] may have changed state; the count and
    the action pin are the same. *)
Definition same_timers_except (i : nat) (d d' : TimerDisplay) : Prop :=
  timerCount d' = timerCount d /\
  actionButtonPin d' = actionButtonPin d /\
  labels d' = labels d /\
  map isPollable (timers d') = map isPollable (timers d) /\
  forall j, j <> i -> nth_error (timers d') j = nth_error (timers d) j.

(** The sixteen blanks [checkButton] prints over the second line. *)
Definition blank_line : string := "                ".


End Vocabulary.

(* ================================================================== *)
(** * Properties *)
(* ================================================================== *)

Section Properties.

Context {J : ArduinoJson} {C : Libc}.

(** Unfold one check attempt down to the answers of the world. *)
Ltac run_poll :=
  unfold PollingTimer_handleButtonPress, PollingTimer_checkPoll, poll, pollImpl,
    GitHub_pollImpl, Bluesky_pollImpl, Weather_pollImpl,
    bind, ret, undefined, throw, WiFi_connected, http_begin, time_nullptr,
    next_wifi, next_exchange, next_time in *;
  cbn in *.

(** Case analysis on every test met along a run recorded in [H]. *)
Ltac split_run H :=
  repeat (match type of H with
          | context [if ?c then _ else _] => destruct c eqn:?
          | context [match ?x with _ => _ end] => destruct x eqn:?
          end; cbn in H);
  try discriminate H.

(** ** Navigation *)

(** C1. With N timers (1 <= N <= 255): from index N-1, [nextTimer] sets
    the index to 0.  From index 0, [previousTimer] computes [(0 - 1) % N]
    on [int]s, which is -1 for N >= 2, and stores it in the [uint8_t]
    index as 255 (not N-1); only for N = 1 does it land on N-1 = 0. *)
Theorem navigation_at_the_ends (self : TimerDisplay) (w : World) :
  1 <= timerCount self <= 255 ->
  (currentIndex self = timerCount self - 1 ->
   nextTimer self w = Done (set_currentIndex self 0) w) /\
  (currentIndex self = 0 ->
   previousTimer self w =
   Done (set_currentIndex self (if timerCount self =? 1 then 0 else 255)) w).
Proof.
  intros HN. split; intros Hi.
  - unfold nextTimer, ret.
    destruct (Z.eqb_spec (timerCount self) 0) as [E|_]; [lia|].
    rewrite Hi. replace (timerCount self - 1 + 1) with (timerCount self) by lia.
    rewrite Z.rem_same by lia. reflexivity.
  - unfold previousTimer, ret.
    destruct (Z.eqb_spec (timerCount self) 0) as [E|_]; [lia|].
    rewrite Hi. cbn [Z.sub Z.add Z.opp].
    destruct (Z.eqb_spec (timerCount self) 1) as [E1|N1].
    + rewrite E1. reflexivity.
    + replace (-1) with (- (1)) by reflexivity.
      rewrite Z.rem_opp_l by lia. rewrite Z.rem_small by lia. reflexivity.
Qed.

(** ** Construction of the feed pollers *)

(** C3. A GitHub username longer than 39 characters makes the constructor
    throw.  The Bluesky constructor tests the length of its own member
    array [handle] before anything was copied into it, not the length of
    [userHandle]: with a handle longer than 253 characters it throws only
    if the bytes found in the member happen to form a long string, and
    otherwise goes on to [strcpy] past the end of the array. *)
Theorem identity_length_checks (handle0 displayName identity : string)
    (pollInterval : Z) (initialTime : time_t) (w : World) :
  (MAX_USERNAME_LENGTH < strlen identity ->
   GitHubPollingTimer_new displayName identity pollInterval initialTime w
   = Thrown "GitHub username too long") /\
  (MAX_HANDLE_LENGTH < strlen identity ->
   BlueskyPollingTimer_new handle0 displayName identity pollInterval initialTime w
   = if MAX_HANDLE_LENGTH <? strlen handle0
     then Thrown "Bluesky handle too long"
     else Undefined).
Proof.
  split; intros Hlen.
  - unfold GitHubPollingTimer_new.
    destruct (Z.ltb_spec MAX_USERNAME_LENGTH (strlen identity)); [reflexivity | lia].
  - unfold BlueskyPollingTimer_new.
    destruct (Z.ltb_spec MAX_HANDLE_LENGTH (strlen handle0)); [reflexivity |].
    unfold bind, strcpy.
    destruct (Z.ltb_spec (MAX_HANDLE_LENGTH + 1) (strlen identity + 1)); [reflexivity | lia].
Qed.

(** The Bluesky constructor's throw does not depend on [userHandle]. *)
Lemma Bluesky_throw_ignores_userHandle (handle0 displayName userHandle : string)
    (pollInterval : Z) (initialTime : time_t) (w : World) :
  MAX_HANDLE_LENGTH < strlen handle0 ->
  BlueskyPollingTimer_new handle0 displayName userHandle pollInterval initialTime w
  = Thrown "Bluesky handle too long".
Proof.
  intros H. unfold BlueskyPollingTimer_new.
  destruct (Z.ltb_spec MAX_HANDLE_LENGTH (strlen handle0)); [reflexivity | lia].
Qed.

(** ** Failed check attempts *)

Lemma pollImpl_fails (c : FailureCategory) (self : PollingTimer) (w : World) :
  fails_with c self w = true ->
  exists w', pollImpl self w = Done (false, self) w'.
Proof.
  intros H. unfold fails_with, field_accepted, field_read, is_feed in H.
  unfold pollImpl. destruct w as [clk cr wf wr net rq pn pr out].
  destruct c; destruct (derived self) eqn:D; run_poll;
    repeat match goal with
           | E : _ && _ = true |- _ => apply andb_true_iff in E; destruct E
           | E : negb _ = true |- _ => apply negb_true_iff in E
           | E : (_ =? _) = true |- _ => apply Z.eqb_eq in E
           | E : match ?x with _ => _ end = true |- _ => destruct x eqn:?
           end;
    try discriminate;
    repeat match goal with
           | E : ?x = _ |- context [?x] => rewrite E; cbn
           end;
    try (eexists; reflexivity).
  all: destruct (strptime _ _ _) as [[|] ?]; cbn in *;
    [discriminate | eexists; reflexivity].
Qed.

Lemma pollImpl_false_unchanged (self self' : PollingTimer) (w w' : World) :
  pollImpl self w = Done (false, self') w' -> self' = self.
Proof.
  intros H. destruct w as [clk cr wf wr net rq pn pr out].
  unfold pollImpl in H. destruct (derived self) eqn:D; run_poll;
    split_run H; inversion H; reflexivity.
Qed.

(** A check attempt is [pollImpl] followed, on success, by one reading
    of the clock into [lastPollTime]. *)
Lemma poll_unfold (self : PollingTimer) (w : World) :
  poll self w =
  match pollImpl self w with
  | Done (true, self1) w1 =>
      Done (true, set_lastPollTime self1 (next_time w1))
           (mk_world (clock w1) (S (clock_reads w1)) (wifi w1) (wifi_reads w1)
                     (network w1) (requests w1) (pins w1) (pin_reads w1) (lcd w1))
  | Done (false, self1) w1 => Done (false, self1) w1
  | Thrown what => Thrown what
  | Undefined => Undefined
  end.
Proof.
  unfold poll, bind. destruct (pollImpl self w) as [[[|] self1] w1| |]; reflexivity.
Qed.

Lemma handleButtonPress_is_poll (self : PollingTimer) (now : time_t) (w : World) :
  PollingTimer_handleButtonPress self now w = poll self w.
Proof.
  unfold PollingTimer_handleButtonPress, bind.
  destruct (poll self w) as [[[|] self1] w1| |]; reflexivity.
Qed.

Lemma checkPoll_due_is_poll (self : PollingTimer) (now : time_t) (w : World) :
  shouldPoll self now = true ->
  PollingTimer_checkPoll self now w = poll self w.
Proof. intros H. unfold PollingTimer_checkPoll. rewrite H. reflexivity. Qed.

Lemma poll_false_unchanged (self self' : PollingTimer) (w w' : World) :
  poll self w = Done (false, self') w' -> self' = self.
Proof.
  rewrite poll_unfold. intros H.
  destruct (pollImpl self w) as [[[|] self1] w1| |] eqn:E; try discriminate.
  inversion H; subst. eapply pollImpl_false_unchanged; eassumption.
Qed.

(** The failures the code handles.  Whatever the poller, when WiFi is
    down, [http.begin] fails, the status is not 200, the answer does not
    decode or fails the test on the field, or the timestamp string does not
    parse, the check attempt returns false and the timer is left as it
    was: [lastTriggerTime] and [lastPollTime] keep their values.  The same
    holds when the attempt is made through a button press or through a due
    periodic check. *)
Theorem failed_check_leaves_timer_untouched (c : FailureCategory)
    (self : PollingTimer) (w : World) (now : time_t) :
  fails_with c self w = true ->
  exists self' w',
    poll self w = Done (false, self') w' /\
    lastTriggerTime (super self') = lastTriggerTime (super self) /\
    lastPollTime self' = lastPollTime self /\
    self' = self /\
    PollingTimer_handleButtonPress self now w = Done (false, self') w' /\
    (shouldPoll self now = true ->
     PollingTimer_checkPoll self now w = Done (false, self') w').
Proof.
  intros H. destruct (pollImpl_fails c self w H) as [w' E].
  assert (P : poll self w = Done (false, self) w')
    by (rewrite poll_unfold, E; reflexivity).
  exists self, w'. repeat split; try assumption.
  - rewrite handleButtonPress_is_poll. exact P.
  - intros Hd. rewrite (checkPoll_due_is_poll self now w Hd). exact P.
Qed.

(** C4.  The failed checks do not all return false.  When a feed poller
    gets a 200 answer that decodes and whose timestamp field passes the
    test [doc[0]["created_at"]] (or [doc["records"][0]["value"]["createdAt"]])
    without being a string, a number for instance, the conversion to
    [const char *] gives the null pointer and [strptime] is called on it:
    the attempt has undefined behaviour instead of returning false with
    the timer untouched, through [poll], through a button press and
    through a due periodic check alike.  None of the failures the code
    handles covers this answer.  The weather poller, which tests the type
    of its field with [is<float>()], returns false on the same kind of
    answer. *)
Theorem feed_check_undefined_on_non_string_timestamp (self : PollingTimer)
    (w : World) (doc : JsonVariant) (now : time_t) :
  next_wifi w = true ->
  begin_ok (next_exchange w) = true ->
  GET (next_exchange w) = HTTP_CODE_OK ->
  deserializeJson (next_exchange w) = Some doc ->
  as_cstr (field_read (derived self) doc) = None ->
  (is_feed (derived self) = true ->
   as_bool (field_read (derived self) doc) = true ->
   poll self w = Undefined /\
   PollingTimer_handleButtonPress self now w = Undefined /\
   (shouldPoll self now = true -> PollingTimer_checkPoll self now w = Undefined) /\
   (forall c, fails_with c self w = false)) /\
  (is_weather (derived self) = true ->
   is_float (field_read (derived self) doc) = false ->
   exists w', poll self w = Done (false, self) w').
Proof.
  intros Hw Hb Hg Hd Hs. split.
  - intros F Ha.
    assert (P : poll self w = Undefined).
    { destruct w as [clk cr wf wr net rq pn pr out].
      unfold poll, pollImpl, field_read in *.
      destruct (derived self) eqn:D; try discriminate F; run_poll;
        rewrite Hw; cbn; rewrite Hb; cbn; rewrite Hg; cbn; rewrite Hd, Ha, Hs;
        reflexivity. }
    split; [exact P|]. split; [| split].
    + rewrite handleButtonPress_is_poll. exact P.
    + intros Hdue. rewrite (checkPoll_due_is_poll self now w Hdue). exact P.
    + intros c. destruct (fails_with c self w) eqn:E; [| reflexivity].
      destruct (pollImpl_fails c self w E) as [w' E'].
      rewrite poll_unfold, E' in P. discriminate P.
  - intros F Hf. apply negb_true_iff in F.
    destruct (pollImpl_fails DecodeFailure self w) as [w' E].
    + unfold fails_with. rewrite Hw, Hb, Hg, Z.eqb_refl, Hd. cbn.
      unfold field_accepted. destruct (derived self); try discriminate F.
      rewrite Hf. reflexivity.
    + exists w'. rewrite poll_unfold, E. reflexivity.
Qed.

(** ** Successful check attempts *)

(** [pollImpl] never reads the clock more than it advances [clock_reads],
    and never changes the answers of the world. *)
Lemma pollImpl_world (self self' : PollingTimer) (b : bool) (w w' : World) :
  pollImpl self w = Done (b, self') w' ->
  clock w' = clock w /\ (clock_reads w <= clock_reads w')%nat /\
  lastPollTime self' = lastPollTime self.
Proof.
  intros H. destruct w as [clk cr wf wr net rq pn pr out].
  unfold pollImpl in H. destruct (derived self) eqn:D; run_poll;
    split_run H; inversion H; subst; cbn;
    unfold set_currentTemp; try rewrite D; cbn; repeat split; auto.
Qed.

(** C5. After a check attempt that returns true, [lastPollTime] is the
    last reading of the wall clock made during the attempt, the one
    [poll] takes once [pollImpl] has returned.  The time handed in by the
    caller plays no part: a button press at any [now], and a periodic check
    at any [now] that is due, give the same result as [poll] itself.  An
    attempt that returns false leaves [lastPollTime] as it was. *)
Theorem successful_check_stamps_completion_time (self self' : PollingTimer)
    (b : bool) (w w' : World) :
  poll self w = Done (b, self') w' ->
  (if b
   then (clock_reads w < clock_reads w')%nat /\
        lastPollTime self' = clock w (pred (clock_reads w'))
   else lastPollTime self' = lastPollTime self) /\
  (forall now, PollingTimer_handleButtonPress self now w = Done (b, self') w') /\
  (forall now, shouldPoll self now = true ->
               PollingTimer_checkPoll self now w = Done (b, self') w').
Proof.
  intros H. split; [| split].
  - rewrite poll_unfold in H.
    destruct (pollImpl self w) as [[[|] self1] w1| |] eqn:E; try discriminate;
      inversion H; subst; clear H.
    + destruct (pollImpl_world _ _ _ _ _ E) as (Hc & Hr & _).
      cbn. unfold next_time. rewrite Hc. split; [lia | reflexivity].
    + destruct (pollImpl_world _ _ _ _ _ E) as (_ & _ & Hp). exact Hp.
  - intros now. rewrite handleButtonPress_is_poll. exact H.
  - intros now Hd. rewrite (checkPoll_due_is_poll self now w Hd). exact H.
Qed.

(** ** The feed pollers *)

(** What a feed poller's [pollImpl] does when every step goes well. *)
Lemma feed_pollImpl_success (self : PollingTimer) (w : World)
    (doc : JsonVariant) (dateStr : string) (t : tm) :
  is_feed (derived self) = true ->
  next_wifi w = true ->
  begin_ok (next_exchange w) = true ->
  GET (next_exchange w) = HTTP_CODE_OK ->
  deserializeJson (next_exchange w) = Some doc ->
  as_bool (field_read (derived self) doc) = true ->
  as_cstr (field_read (derived self) doc) = Some dateStr ->
  strptime dateStr "%Y-%m-%dT%H:%M:%S" tm_zero = (true, t) ->
  exists w1, pollImpl self w = Done (true, trigger_p self (mktime t)) w1.
Proof.
  intros F Hw Hb Hg Hd Ha Hs Hp.
  destruct w as [clk cr wf wr net rq pn pr out].
  unfold pollImpl, field_read in *.
  destruct (derived self) eqn:D; try discriminate F; run_poll;
    rewrite Hw; cbn; rewrite Hb; cbn; rewrite Hg; cbn; rewrite Hd, Ha, Hs, Hp;
    cbn; eexists; reflexivity.
Qed.

(** The converse: a feed poller's [pollImpl] returns true only that way. *)
Lemma feed_pollImpl_true_inv (self self' : PollingTimer) (w w' : World) :
  is_feed (derived self) = true ->
  pollImpl self w = Done (true, self') w' ->
  exists doc dateStr t,
    next_wifi w = true /\
    begin_ok (next_exchange w) = true /\
    GET (next_exchange w) = HTTP_CODE_OK /\
    deserializeJson (next_exchange w) = Some doc /\
    as_bool (field_read (derived self) doc) = true /\
    as_cstr (field_read (derived self) doc) = Some dateStr /\
    strptime dateStr "%Y-%m-%dT%H:%M:%S" tm_zero = (true, t) /\
    self' = trigger_p self (mktime t).
Proof.
  intros F H. destruct w as [clk cr wf wr net rq pn pr out].
  unfold pollImpl, field_read in *.
  destruct (derived self) eqn:D; try discriminate F; run_poll;
    split_run H; inversion H; subst;
    repeat match goal with
           | E : negb _ = false |- _ => apply negb_false_iff in E
           | E : (_ =? _) = true |- _ => apply Z.eqb_eq in E
           end;
    do 3 eexists; repeat split; eassumption.
Qed.

(** A successful feed check puts the parsed event time in the anchor. *)
Lemma feed_poll_anchor (self self' : PollingTimer) (w w' : World) :
  is_feed (derived self) = true ->
  poll self w = Done (true, self') w' ->
  exists doc dateStr t,
    deserializeJson (next_exchange w) = Some doc /\
    as_cstr (field_read (derived self) doc) = Some dateStr /\
    strptime dateStr "%Y-%m-%dT%H:%M:%S" tm_zero = (true, t) /\
    lastTriggerTime (super self') = mktime t.
Proof.
  intros F H. rewrite poll_unfold in H.
  destruct (pollImpl self w) as [[[|] self1] w1| |] eqn:E; try discriminate.
  inversion H; subst; clear H.
  destruct (feed_pollImpl_true_inv _ _ _ _ F E)
    as (doc & dateStr & t & Hw & Hb & Hg & Hd & Ha & Hs & Hp & ->).
  exists doc, dateStr, t. repeat split; assumption.
Qed.

(** C6. A check of a GitHub or Bluesky poller succeeds exactly on a 200
    answer that decodes and holds, in the first item's creation-time
    field, a string that parses under [%Y-%m-%dT%H:%M:%S].  On such an
    answer the check returns true and [lastTriggerTime] is [mktime] of the
    parsed fields, the event's own time; and whenever a check returns
    true, the answer was of that kind and [lastTriggerTime] is that value.
    The wall clock has no influence on it: under any other clock the same
    check succeeds with the same [lastTriggerTime]. *)
Theorem feed_check_sets_anchor_to_event_time (self : PollingTimer) (w : World) :
  is_feed (derived self) = true ->
  (forall doc dateStr t,
     next_wifi w = true ->
     begin_ok (next_exchange w) = true ->
     GET (next_exchange w) = HTTP_CODE_OK ->
     deserializeJson (next_exchange w) = Some doc ->
     as_bool (field_read (derived self) doc) = true ->
     as_cstr (field_read (derived self) doc) = Some dateStr ->
     strptime dateStr "%Y-%m-%dT%H:%M:%S" tm_zero = (true, t) ->
     exists self' w',
       poll self w = Done (true, self') w' /\
       lastTriggerTime (super self') = mktime t) /\
  (forall self' w',
     poll self w = Done (true, self') w' ->
     (exists doc dateStr t,
        deserializeJson (next_exchange w) = Some doc /\
        as_cstr (field_read (derived self) doc) = Some dateStr /\
        strptime dateStr "%Y-%m-%dT%H:%M:%S" tm_zero = (true, t) /\
        lastTriggerTime (super self') = mktime t) /\
     (forall clk, exists self2 w2,
        poll self (with_clock w clk) = Done (true, self2) w2 /\
        lastTriggerTime (super self2) = lastTriggerTime (super self'))).
Proof.
  intros F. split.
  - intros doc dateStr t Hw Hb Hg Hd Ha Hs Hp.
    destruct (feed_pollImpl_success self w doc dateStr t F Hw Hb Hg Hd Ha Hs Hp)
      as [w1 E].
    rewrite poll_unfold, E. do 2 eexists. split; reflexivity.
  - intros self' w' H.
    split; [exact (feed_poll_anchor self self' w w' F H)|].
    rewrite poll_unfold in H.
    destruct (pollImpl self w) as [[[|] self1] w1| |] eqn:E; try discriminate.
    inversion H; subst; clear H.
    destruct (feed_pollImpl_true_inv _ _ _ _ F E)
      as (doc & dateStr & t & Hw & Hb & Hg & Hd & Ha & Hs & Hp & ->).
    intros clk.
    destruct (feed_pollImpl_success self (with_clock w clk) doc dateStr t F)
      as [w2 E2]; try assumption.
    rewrite poll_unfold, E2. do 2 eexists. split; reflexivity.
Qed.

(** ** The weather poller *)

(** C8. A periodic check of the weather poller that gets a 200 answer
    with a number in [current.temperature_2m] returns true.  If the number
    is greater than zero, [lastTriggerTime] becomes the wall-clock reading
    [pollImpl] takes once it has the value, and [lastPollTime] the reading
    [poll] takes right after; if not, [lastTriggerTime] keeps its value
    and [lastPollTime] is still updated. *)
Theorem threshold_check_resets_only_above_zero (self : PollingTimer)
    (w : World) (doc : JsonVariant) (now : time_t) :
  is_weather (derived self) = true ->
  shouldPoll self now = true ->
  next_wifi w = true ->
  begin_ok (next_exchange w) = true ->
  GET (next_exchange w) = HTTP_CODE_OK ->
  deserializeJson (next_exchange w) = Some doc ->
  is_float doc.<"current">.<"temperature_2m"> = true ->
  exists self' w',
    PollingTimer_checkPoll self now w = Done (true, self') w' /\
    poll self w = Done (true, self') w' /\
    if gt_zero (as_float doc.<"current">.<"temperature_2m">)
    then lastTriggerTime (super self') = clock w (clock_reads w) /\
         lastPollTime self' = clock w (S (clock_reads w))
    else lastTriggerTime (super self') = lastTriggerTime (super self) /\
         lastPollTime self' = clock w (clock_reads w).
Proof.
  intros F Hdue Hw Hb Hg Hd Hf.
  rewrite (checkPoll_due_is_poll self now w Hdue).
  destruct w as [clk cr wf wr net rq pn pr out].
  unfold is_weather, is_feed in F.
  destruct (derived self) eqn:D; try discriminate F.
  unfold poll, pollImpl. rewrite D. run_poll.
  rewrite Hw; cbn; rewrite Hb; cbn; rewrite Hg; cbn; rewrite Hd, Hf.
  unfold set_currentTemp. rewrite D.
  destruct (gt_zero (as_float doc.<"current">.<"temperature_2m">)); cbn;
    do 2 eexists; repeat split; reflexivity.
Qed.

(** The backward scan of the two hourly series. *)
Lemma searchFromMostRecent_spec (times temps : JsonVariant) (n : nat) (w : World) :
  (forall i, (i < n)%nat -> as_cstr times.[i] <> None) ->
  (exists i timeStr,
     (i < n)%nat /\
     gt_zero (as_float temps.[i]) = true /\
     (forall j, (i < j < n)%nat -> gt_zero (as_float temps.[j]) = false) /\
     as_cstr times.[i] = Some timeStr /\
     searchFromMostRecent times temps n w
     = Done (Some (mktime (snd (strptime timeStr "%Y-%m-%dT%H:%M" tm_zero)))) w)
  \/
  ((forall j, (j < n)%nat -> gt_zero (as_float temps.[j]) = false) /\
   searchFromMostRecent times temps n w = Done None w).
Proof.
  induction n as [|i IH]; intros WF.
  - right. split; [intros j Hj; lia | reflexivity].
  - cbn [searchFromMostRecent].
    destruct (gt_zero (as_float temps.[i])) eqn:G.
    + left. destruct (as_cstr times.[i]) as [timeStr|] eqn:Ei.
      * exists i, timeStr.
        split; [lia|]. split; [assumption|]. split; [intros j Hj; lia|].
        split; [assumption|].
        destruct (strptime timeStr "%Y-%m-%dT%H:%M" tm_zero); reflexivity.
      * exfalso. apply (WF i); [lia | assumption].
    + destruct IH as [(k & timeStr & Hk & Gk & Hnewer & Sk & E) | [Hall E]].
      * intros j Hj. apply WF. lia.
      * left. exists k, timeStr.
        split; [lia|]. split; [assumption|]. split; [| split; assumption].
        intros j Hj. destruct (Nat.eq_dec j i) as [->|Hne]; [assumption|].
        apply Hnewer. lia.
      * right. split; [| assumption].
        intros j Hj. destruct (Nat.eq_dec j i) as [->|Hne]; [assumption|].
        apply Hall. lia.
Qed.

(** C7. When the archive request of the constructor is answered with two
    hourly arrays whose time entries are strings, the timer is built with
    [lastTriggerTime] equal to the time of the newest sample whose
    temperature is greater than zero (every later sample is not), and, if
    no sample is greater than zero, to the start of the window: thirty
    days before the [now] read by [findLastAboveZero]. *)
Theorem backfill_finds_newest_sample_above_zero (displayName : string)
    (lat lon : float) (pollInterval : Z) (w : World) (doc : JsonVariant) :
  begin_ok (next_exchange w) = true ->
  GET (next_exchange w) = HTTP_CODE_OK ->
  deserializeJson (next_exchange w) = Some doc ->
  is_JsonArray doc.<"hourly">.<"time"> = true ->
  is_JsonArray doc.<"hourly">.<"temperature_2m"> = true ->
  (forall i, (i < size doc.<"hourly">.<"time">)%nat ->
             as_cstr doc.<"hourly">.<"time">.[i] <> None) ->
  exists self' w',
    WeatherPollingTimer_new displayName lat lon pollInterval w = Done self' w' /\
    ((exists i timeStr,
        (i < size doc.<"hourly">.<"time">)%nat /\
        gt_zero (as_float doc.<"hourly">.<"temperature_2m">.[i]) = true /\
        (forall j, (i < j < size doc.<"hourly">.<"time">)%nat ->
                   gt_zero (as_float doc.<"hourly">.<"temperature_2m">.[j]) = false) /\
        as_cstr doc.<"hourly">.<"time">.[i] = Some timeStr /\
        lastTriggerTime (super self')
        = mktime (snd (strptime timeStr "%Y-%m-%dT%H:%M" tm_zero)))
     \/
     ((forall j, (j < size doc.<"hourly">.<"time">)%nat ->
                 gt_zero (as_float doc.<"hourly">.<"temperature_2m">.[j]) = false) /\
      lastTriggerTime (super self')
      = clock w (S (clock_reads w)) - 30 * 24 * 60 * 60)).
Proof.
  intros Hb Hg Hd Ht Hv WF.
  destruct w as [clk cr wf wr net rq pn pr out].
  unfold WeatherPollingTimer_new, findLastAboveZero.
  run_poll. rewrite Hb; cbn. rewrite Hg; cbn. rewrite Hd, Ht, Hv; cbn.
  match goal with
  | |- context [searchFromMostRecent ?ts ?vs ?n ?w1] =>
      destruct (searchFromMostRecent_spec ts vs n w1 WF)
        as [(i & timeStr & Hi & Gi & Hnewer & Si & E) | [Hall E]];
      rewrite E
  end.
  - do 2 eexists. split; [reflexivity|]. left.
    exists i, timeStr.
    split; [assumption|]. split; [assumption|]. split; [assumption|].
    split; [assumption | reflexivity].
  - do 2 eexists. split; [reflexivity|]. right.
    split; [assumption | reflexivity].
Qed.

(** C10. When the archive request of the constructor fails ([http.begin]
    fails, status other than 200, body that does not decode, or a series
    that is not an array), the timer is built with [lastTriggerTime] equal
    to the [now] read by [findLastAboveZero] at construction, which is not
    the start of the thirty-day window. *)
Theorem failed_backfill_anchors_at_now (displayName : string)
    (lat lon : float) (pollInterval : Z) (w : World) :
  backfill_fails (next_exchange w) = true ->
  exists self' w',
    WeatherPollingTimer_new displayName lat lon pollInterval w = Done self' w' /\
    lastTriggerTime (super self') = clock w (S (clock_reads w)) /\
    lastTriggerTime (super self') <> clock w (S (clock_reads w)) - 30 * 24 * 60 * 60.
Proof.
  intros H. destruct w as [clk cr wf wr net rq pn pr out].
  unfold backfill_fails in H.
  unfold WeatherPollingTimer_new, findLastAboveZero. run_poll.
  assert (Fin : forall t0 w1,
             exists self' w',
               Done (trigger_p (PollingTimer_new displayName pollInterval t0
                                  (Weather lat lon zero_f)) (clk (S cr))) w1
               = Done self' w' /\
               lastTriggerTime (super self') = clk (S cr) /\
               lastTriggerTime (super self') <> clk (S cr) - 30 * 24 * 60 * 60).
  { intros t0 w1. do 2 eexists. split; [reflexivity|]. cbn. split; [reflexivity | lia]. }
  destruct (begin_ok (net rq)); cbn in *; [| apply Fin].
  destruct (GET (net rq) =? HTTP_CODE_OK); cbn in *; [| apply Fin].
  destruct (deserializeJson (net rq)) as [doc|]; cbn in *; [| apply Fin].
  apply negb_true_iff in H. rewrite H. apply Fin.
Qed.

(** ** How the anchor moves *)

(** Over one check attempt the anchor either stays, or the attempt
    succeeded and the anchor is the value [pollImpl] handed to [trigger]. *)
Lemma poll_anchor (self self' : PollingTimer) (b : bool) (w w' : World) :
  poll self w = Done (b, self') w' ->
  lastTriggerTime (super self') = lastTriggerTime (super self) \/
  (b = true /\
   if is_feed (derived self)
   then exists doc dateStr t,
          deserializeJson (next_exchange w) = Some doc /\
          as_cstr (field_read (derived self) doc) = Some dateStr /\
          strptime dateStr "%Y-%m-%dT%H:%M:%S" tm_zero = (true, t) /\
          lastTriggerTime (super self') = mktime t
   else lastTriggerTime (super self') = next_time w).
Proof.
  intros H. destruct b.
  - destruct (is_feed (derived self)) eqn:F.
    + right. split; [reflexivity|].
      exact (feed_poll_anchor self self' w w' F H).
    + rewrite poll_unfold in H.
      destruct (pollImpl self w) as [[[|] self1] w1| |] eqn:E; try discriminate.
      inversion H; subst; clear H. cbn [super set_lastPollTime].
      destruct w as [clk cr wf wr net rq pn pr out].
      unfold pollImpl in E. destruct (derived self) eqn:D; try discriminate F.
      run_poll. split_run E; inversion E; subst; cbn;
        unfold set_currentTemp; try rewrite D; cbn; auto.
  - left. rewrite (poll_false_unchanged _ _ _ _ H). reflexivity.
Qed.

(** C2, as the code has it.  A button press or a periodic check on any
    timer either leaves [lastTriggerTime] as it was or sets it to the
    value handed to [trigger]: the [now] of the press for a button timer,
    the parsed time of the newest event for a feed poller whose check
    succeeded, the reading of the wall clock for the weather poller whose
    check succeeded.  [lastTriggerTime] does not decrease over the
    operation when that value is not below it. *)
Theorem anchor_moves_only_to_trigger_value (t t' : AnyTimer) (now : time_t)
    (b : bool) (w w' : World) :
  handleButtonPress t now w = Done (b, t') w' \/
  checkPoll t now w = Done (b, t') w' ->
  (lastTriggerTime (as_Timer t') = lastTriggerTime (as_Timer t) \/
   match t with
   | a_ButtonTimer _ => lastTriggerTime (as_Timer t') = now
   | a_PollingTimer p =>
       b = true /\
       if is_feed (derived p)
       then exists doc dateStr t,
              deserializeJson (next_exchange w) = Some doc /\
              as_cstr (field_read (derived p) doc) = Some dateStr /\
              strptime dateStr "%Y-%m-%dT%H:%M:%S" tm_zero = (true, t) /\
              lastTriggerTime (as_Timer t') = mktime t
       else lastTriggerTime (as_Timer t') = next_time w
   end) /\
  (match t with
   | a_ButtonTimer _ => lastTriggerTime (as_Timer t) <= now
   | a_PollingTimer p =>
       if is_feed (derived p)
       then forall doc dateStr t,
              deserializeJson (next_exchange w) = Some doc ->
              as_cstr (field_read (derived p) doc) = Some dateStr ->
              strptime dateStr "%Y-%m-%dT%H:%M:%S" tm_zero = (true, t) ->
              lastTriggerTime (super p) <= mktime t
       else lastTriggerTime (super p) <= next_time w
   end ->
   lastTriggerTime (as_Timer t) <= lastTriggerTime (as_Timer t')).
Proof.
  intros H.
  assert (Main :
    lastTriggerTime (as_Timer t') = lastTriggerTime (as_Timer t) \/
    match t with
    | a_ButtonTimer _ => lastTriggerTime (as_Timer t') = now
    | a_PollingTimer p =>
        b = true /\
        if is_feed (derived p)
        then exists doc dateStr t,
               deserializeJson (next_exchange w) = Some doc /\
               as_cstr (field_read (derived p) doc) = Some dateStr /\
               strptime dateStr "%Y-%m-%dT%H:%M:%S" tm_zero = (true, t) /\
               lastTriggerTime (as_Timer t') = mktime t
        else lastTriggerTime (as_Timer t') = next_time w
    end).
  { destruct t as [bt | p].
    - destruct H as [H | H]; cbn in H; inversion H; subst; cbn; auto.
    - assert (P : exists p', t' = a_PollingTimer p' /\
                   (poll p w = Done (b, p') w' \/ (b = false /\ p' = p))).
      { destruct H as [H | H]; unfold handleButtonPress, checkPoll, bind in H.
        - rewrite handleButtonPress_is_poll in H.
          destruct (poll p w) as [[b1 p1] w1| |] eqn:E; try discriminate.
          cbn in H. inversion H; subst. eauto.
        - unfold PollingTimer_checkPoll in H.
          destruct (shouldPoll p now).
          + destruct (poll p w) as [[b1 p1] w1| |] eqn:E; try discriminate.
            cbn in H. inversion H; subst. eauto.
          + cbn in H. inversion H; subst. eauto. }
      destruct P as (p' & -> & [P | [-> ->]]); cbn [as_Timer].
      + exact (poll_anchor _ _ _ _ _ P).
      + left; reflexivity. }
  split; [exact Main|].
  intros Hge. destruct Main as [-> | M]; [lia|].
  destruct t as [bt | p]; cbn [as_Timer] in *.
  - lia.
  - destruct M as [_ M]. destruct (is_feed (derived p)).
    + destruct M as (doc & dateStr & tmv & Hd & Hs & Hp & ->).
      exact (Hge doc dateStr tmv Hd Hs Hp).
    + rewrite M. exact Hge.
Qed.

(** ** The navigation buttons *)

(** [checkNavigationButtons] keeps no memory of the level it saw on the
    tick before: whenever the down button reads low (and the up button
    high), the index advances. *)
Lemma down_low_advances (self : TimerDisplay) (w : World) :
  timerCount self <> 0 ->
  pins w (pin_reads w) DOWN_BUTTON = LOW ->
  pins w (S (pin_reads w)) UP_BUTTON = HIGH ->
  exists w',
    checkNavigationButtons self w
    = Done (set_currentIndex self
              (to_uint8 (Z.rem (currentIndex self + 1) (timerCount self)))) w'.
Proof.
  intros HN Hd Hu. destruct w as [clk cr wf wr net rq pn pr out].
  cbn in Hd, Hu.
  unfold checkNavigationButtons, nextTimer, previousTimer, delay, bind, ret,
    digitalRead. cbn.
  rewrite Hd. cbn. destruct (Z.eqb_spec (timerCount self) 0); [contradiction|].
  cbn. rewrite Hu. cbn. eexists; reflexivity.
Qed.

(** ** Further properties of the timers *)

(** What a check attempt leaves alone, and what it costs. *)
Lemma pollImpl_frame (self self' : PollingTimer) (b : bool) (w w' : World) :
  pollImpl self w = Done (b, self') w' ->
  (name (super self') = name (super self) /\
   pollingInterval self' = pollingInterval self /\
   (is_feed (derived self) = true -> derived self' = derived self) /\
   (forall la lo t, derived self = Weather la lo t ->
                    exists t', derived self' = Weather la lo t')) /\
  (clock w' = clock w /\ wifi w' = wifi w /\ network w' = network w /\
   pins w' = pins w /\ pin_reads w' = pin_reads w /\ lcd w' = lcd w) /\
  (wifi_reads w' = S (wifi_reads w) /\
   (requests w <= requests w' <= S (requests w))%nat /\
   (next_wifi w = false ->
    requests w' = requests w /\ clock_reads w' = clock_reads w)).
Proof.
  intros H. destruct w as [clk cr wf wr net rq pn pr out].
  unfold pollImpl in H. destruct (derived self) eqn:D; run_poll;
    split_run H; inversion H; subst; cbn;
    unfold set_currentTemp; try rewrite D; cbn;
    (split; [split; [reflexivity | split; [reflexivity | split;
              [intros F; try reflexivity; try discriminate F
              | intros la0 lo0 t0 E; try discriminate E;
                injection E as <- <- <-; eexists; reflexivity]]]
            | split; [repeat split; reflexivity
                     | split; [reflexivity | split; [lia|]]]]);
    intros Hw; cbn in Hw;
    try (rewrite Hw in *; cbn in *; discriminate); split; reflexivity.
Qed.

(** A check attempt keeps the polling interval. *)
Lemma poll_pollingInterval (self self' : PollingTimer) (b : bool)
    (w w' : World) :
  poll self w = Done (b, self') w' ->
  pollingInterval self' = pollingInterval self.
Proof.
  intros H. rewrite poll_unfold in H.
  destruct (pollImpl self w) as [[[|] self1] w1| |] eqn:E; try discriminate;
    inversion H; subst; clear H;
    destruct (pollImpl_frame _ _ _ _ _ E) as ((_ & I & _) & _ & _); exact I.
Qed.

(** X4. A check attempt, whatever its result, never changes the timer's
    label or its polling interval; a feed poller keeps its account name and
    the weather poller its coordinates. *)
Theorem poll_keeps_identity (self self' : PollingTimer) (b : bool)
    (w w' : World) :
  poll self w = Done (b, self') w' ->
  name (super self') = name (super self) /\
  pollingInterval self' = pollingInterval self /\
  (is_feed (derived self) = true -> derived self' = derived self) /\
  (forall la lo t, derived self = Weather la lo t ->
                   exists t', derived self' = Weather la lo t').
Proof.
  intros H. rewrite poll_unfold in H.
  destruct (pollImpl self w) as [[[|] self1] w1| |] eqn:E; try discriminate;
    inversion H; subst; clear H;
    destruct (pollImpl_frame _ _ _ _ _ E) as (I & _ & _); exact I.
Qed.

(** X5. A check attempt asks for the WiFi status once, makes at most one
    HTTP request, writes nothing to the display and reads no pin; when
    WiFi is down it makes no request and does not read the clock. *)
Theorem poll_io_budget (self self' : PollingTimer) (b : bool) (w w' : World) :
  poll self w = Done (b, self') w' ->
  wifi_reads w' = S (wifi_reads w) /\
  (requests w <= requests w' <= S (requests w))%nat /\
  lcd w' = lcd w /\ pin_reads w' = pin_reads w /\
  (next_wifi w = false ->
   b = false /\ requests w' = requests w /\ clock_reads w' = clock_reads w).
Proof.
  intros H. rewrite poll_unfold in H.
  destruct (pollImpl self w) as [[[|] self1] w1| |] eqn:E; try discriminate;
    inversion H; subst; clear H;
    destruct (pollImpl_frame _ _ _ _ _ E)
      as (_ & (_ & _ & _ & _ & Hp & Hl) & Hwr & Hrq & Hdown); cbn;
    (split; [exact Hwr | split; [exact Hrq | split; [exact Hl | split; [exact Hp|]]]]);
    intros Hw.
  - exfalso. destruct (pollImpl_fails NoTransport self w) as [w2 E2].
    + unfold fails_with. rewrite Hw. reflexivity.
    + rewrite E2 in E. discriminate E.
  - split; [reflexivity | exact (Hdown Hw)].
Qed.

(** X2. The interval gate: after a check that succeeded, with
    [lastPollTime] set to T, a periodic check at any [now] with
    [now - T] below the polling interval does nothing: no request, no
    change of the timer, result false. *)
Theorem checkPoll_gate_after_success (self self' : PollingTimer)
    (w w' w2 : World) (now : time_t) :
  poll self w = Done (true, self') w' ->
  now - lastPollTime self' < pollingInterval self ->
  PollingTimer_checkPoll self' now w2 = Done (false, self') w2.
Proof.
  intros H Hnow.
  pose proof (poll_pollingInterval self self' true w w' H) as Hi.
  unfold PollingTimer_checkPoll, shouldPoll, difftime, ret. rewrite Hi.
  destruct (Z.leb_spec (pollingInterval self) (now - lastPollTime self'));
    [lia | reflexivity].
Qed.

(** X3. No backoff: when a periodic check was due at [now] and the attempt
    returned false, the check is due again at every later time. *)
Theorem failed_check_is_due_again (self self' : PollingTimer) (w w' : World)
    (now now' : time_t) :
  shouldPoll self now = true ->
  PollingTimer_checkPoll self now w = Done (false, self') w' ->
  now <= now' ->
  shouldPoll self' now' = true.
Proof.
  intros Hdue H Hle. rewrite (checkPoll_due_is_poll self now w Hdue) in H.
  rewrite (poll_false_unchanged _ _ _ _ H).
  unfold shouldPoll, difftime in *. apply Z.leb_le in Hdue. apply Z.leb_le. lia.
Qed.

(** X1. After a button timer is pressed at [now], the elapsed time shown
    at a later [now'] is [now' - now], whatever the anchor was before,
    as long as the difference fits [int32_t]; outside that range the
    conversion is undefined. *)
Theorem timeSince_after_press (self : Timer) (now now' : time_t) (w w2 : World) :
  exists self',
    ButtonTimer_handleButtonPress self now w = Done (true, self') w /\
    name self' = name self /\
    timeSince self' now' w2 =
    if (INT32_MIN <=? now' - now) && (now' - now <=? INT32_MAX)
    then Done (now' - now) w2 else Undefined.
Proof.
  exists (trigger self now). split; [reflexivity|]. split; [reflexivity|].
  unfold timeSince, difftime, trigger, ret, undefined. cbn.
  destruct ((INT32_MIN <=? now' - now) && (now' - now <=? INT32_MAX)); reflexivity.
Qed.

(** ** Further properties of the constructors *)





(** ** Start-up *)

(** X16. [initTime] returns as soon as the clock reads at least one day
    past the epoch: if the first [k] readings are below 86400 seconds and
    the next one is not, then with room for more than [k] rounds the loop
    is left after exactly [k + 1] readings, and nothing else in the world
    has changed. *)
Theorem initTime_waits_for_the_clock (w : World) (k fuel : nat) :
  (forall i, (i < k)%nat -> clock w (i + clock_reads w) < 24 * 3600) ->
  24 * 3600 <= clock w (k + clock_reads w) ->
  (k < fuel)%nat ->
  initTime fuel w = Done true (after_clock_reads w (S k)).
Proof.
  unfold initTime. revert w fuel.
  induction k as [|k IH]; intros w fuel Hlow Hhigh Hfuel;
    (destruct fuel as [|fuel]; [lia|]);
    destruct w as [clk cr wf wr net rq pn pr out];
    cbn [initTime_wait]; unfold delay, bind, ret, time_nullptr; cbn in *.
  - destruct (Z.ltb_spec (clk cr) 86400); [lia | reflexivity].
  - destruct (Z.ltb_spec (clk cr) 86400) as [_|Hge].
    + rewrite (IH (mk_world clk (S cr) wf wr net rq pn pr out) fuel).
      * unfold after_clock_reads. cbn. repeat f_equal. lia.
      * intros i Hi. cbn. replace (i + S cr)%nat with (S i + cr)%nat by lia.
        apply Hlow. lia.
      * cbn. replace (k + S cr)%nat with (S (k + cr)) by lia. exact Hhigh.
      * lia.
    + specialize (Hlow O ltac:(lia)). cbn in Hlow. lia.
Qed.

(** ** Further properties of the display controller *)

Lemma replace_nth_other {A} (l : list A) (i j : nat) (x : A) :
  j <> i -> nth_error (replace_nth l i x) j = nth_error l j.
Proof.
  revert i j. induction l as [|y l IH]; intros i j Hne; [reflexivity|].
  destruct i as [|i], j as [|j]; cbn; try reflexivity; try contradiction.
  apply IH. congruence.
Qed.

Lemma map_replace_nth {A B} (f : A -> B) (l : list A) (i : nat) (x y : A) :
  nth_error l i = Some y -> f x = f y ->
  map f (replace_nth l i x) = map f l.
Proof.
  revert i. induction l as [|z l IH]; intros i Hy Hf; [reflexivity|].
  destruct i as [|i]; cbn in *.
  - injection Hy as ->. rewrite Hf. reflexivity.
  - rewrite (IH i Hy Hf). reflexivity.
Qed.

Lemma same_timers_except_refl (i : nat) (d : TimerDisplay) :
  same_timers_except i d d.
Proof. unfold same_timers_except. repeat split; reflexivity. Qed.

Lemma same_timers_except_trans (i : nat) (d1 d2 d3 : TimerDisplay) :
  same_timers_except i d1 d2 -> same_timers_except i d2 d3 ->
  same_timers_except i d1 d3.
Proof.
  intros (A1 & B1 & C1 & D1 & E1) (A2 & B2 & C2 & D2 & E2).
  unfold same_timers_except. repeat split; try congruence.
  intros j Hj. rewrite (E2 j Hj). apply E1, Hj.
Qed.

(** Storing back a timer of the same label and kind at the selected slot. *)
Lemma set_current_same_timers (self : TimerDisplay) (t t' : AnyTimer) :
  nth_error (timers self) (Z.to_nat (currentIndex self)) = Some t ->
  name (as_Timer t') = name (as_Timer t) ->
  isPollable t' = isPollable t ->
  same_timers_except (Z.to_nat (currentIndex self)) self (set_current self t').
Proof.
  intros Hn Hname Hkind. unfold same_timers_except, labels, set_current. cbn.
  repeat split.
  - apply (map_replace_nth (fun t => name (as_Timer t)) _ _ _ _ Hn Hname).
  - apply (map_replace_nth isPollable _ _ _ _ Hn Hkind).
  - intros j Hj. apply replace_nth_other, Hj.
Qed.

(** What the virtual calls on a timer keep and cost. *)
Lemma handleButtonPress_frame (t t' : AnyTimer) (now : time_t) (b : bool)
    (w w' : World) :
  handleButtonPress t now w = Done (b, t') w' ->
  name (as_Timer t') = name (as_Timer t) /\ isPollable t' = isPollable t /\
  pins w' = pins w /\ pin_reads w' = pin_reads w /\ lcd w' = lcd w /\
  (isPollable t = false -> w' = w).
Proof.
  intros H. destruct t as [bt | p]; unfold handleButtonPress, bind in H.
  - cbn in H. inversion H; subst. cbn. repeat split; reflexivity.
  - rewrite handleButtonPress_is_poll, poll_unfold in H.
    destruct (pollImpl p w) as [[[|] p1] w1| |] eqn:E; try discriminate;
      cbn in H; inversion H; subst; clear H;
      destruct (pollImpl_frame _ _ _ _ _ E)
        as ((Hn & _) & (_ & _ & _ & Hp & Hr & Hl) & _); cbn;
      repeat split; try assumption; intros F; discriminate F.
Qed.

Lemma checkPoll_frame (t t' : AnyTimer) (now : time_t) (b : bool)
    (w w' : World) :
  checkPoll t now w = Done (b, t') w' ->
  name (as_Timer t') = name (as_Timer t) /\ isPollable t' = isPollable t /\
  pins w' = pins w /\ pin_reads w' = pin_reads w /\ lcd w' = lcd w.
Proof.
  intros H. destruct t as [bt | p]; unfold checkPoll, bind in H.
  - cbn in H. inversion H; subst. cbn. repeat split; reflexivity.
  - unfold PollingTimer_checkPoll in H. destruct (shouldPoll p now).
    + rewrite poll_unfold in H.
      destruct (pollImpl p w) as [[[|] p1] w1| |] eqn:E; try discriminate;
        cbn in H; inversion H; subst; clear H;
        destruct (pollImpl_frame _ _ _ _ _ E)
          as ((Hn & _) & (_ & _ & _ & Hp & Hr & Hl) & _); cbn;
        repeat split; assumption.
    + cbn in H. inversion H; subst. cbn. repeat split; reflexivity.
Qed.

(** X9. The action button is edge detected: unless the pin reads low
    while the level remembered from the tick before is high, [checkButton]
    touches no timer and writes nothing to the display; it only reads the
    pin once and remembers the level. *)
Theorem checkButton_fires_only_on_falling_edge (self : TimerDisplay)
    (now : time_t) (w : World) :
  pins w (pin_reads w) (actionButtonPin self) = HIGH \/
  lastButtonState self = LOW ->
  checkButton self now w
  = Done (set_lastButtonState self (pins w (pin_reads w) (actionButtonPin self)))
         (after_pins_and_lcd w 1 []).
Proof.
  intros H. destruct w as [clk cr wf wr net rq pn pr out]. cbn in H.
  unfold checkButton, bind, ret, delay, digitalRead, after_pins_and_lcd. cbn.
  rewrite app_nil_r.
  destruct H as [H | H]; rewrite H; cbn; [reflexivity|].
  rewrite andb_false_r. reflexivity.
Qed.

(** X10. On a falling edge of the action button with a button timer
    selected, [checkButton] blanks the second line of the display, sets
    that timer's [lastTriggerTime] to [now] and leaves every other timer
    as it was. *)
Theorem checkButton_press_resets_button_timer (self : TimerDisplay)
    (bt : Timer) (now : time_t) (w : World) :
  pins w (pin_reads w) (actionButtonPin self) = LOW ->
  lastButtonState self = HIGH ->
  nth_error (timers self) (Z.to_nat (currentIndex self)) = Some (a_ButtonTimer bt) ->
  checkButton self now w
  = Done (set_lastButtonState
            (set_current self (a_ButtonTimer (trigger bt now))) LOW)
         (after_pins_and_lcd w 1 [lcd_setCursor 0 1; lcd_print blank_line]) /\
  same_timers_except (Z.to_nat (currentIndex self)) self
                     (set_current self (a_ButtonTimer (trigger bt now))).
Proof.
  intros Hl Hs Hn. split.
  - destruct w as [clk cr wf wr net rq pn pr out]. cbn in Hl.
    unfold checkButton, bind, ret, delay, digitalRead, lcd_do, getCurrentTimer,
      after_pins_and_lcd. cbn.
    rewrite Hl, Hs. cbn. rewrite Hn. cbn. rewrite <- app_assoc. reflexivity.
  - apply (set_current_same_timers self (a_ButtonTimer bt)); [exact Hn | |]; reflexivity.
Qed.

(** X17. On a falling edge of the action button with a polling timer
    selected, the check attempt is made whether or not the polling
    interval has elapsed, and the timer it leaves is stored back. *)
Theorem checkButton_press_forces_check (self : TimerDisplay)
    (p p' : PollingTimer) (b : bool) (now : time_t) (w w' : World) :
  pins w (pin_reads w) (actionButtonPin self) = LOW ->
  lastButtonState self = HIGH ->
  nth_error (timers self) (Z.to_nat (currentIndex self)) = Some (a_PollingTimer p) ->
  poll p (after_pins_and_lcd w 1 [lcd_setCursor 0 1; lcd_print blank_line])
  = Done (b, p') w' ->
  checkButton self now w
  = Done (set_lastButtonState (set_current self (a_PollingTimer p')) LOW) w'.
Proof.
  intros Hl Hs Hn Hp.
  destruct w as [clk cr wf wr net rq pn pr out]. cbn in Hl.
  unfold after_pins_and_lcd, blank_line in Hp. cbn in Hp.
  unfold checkButton, bind, ret, delay, digitalRead, lcd_do, getCurrentTimer. cbn.
  rewrite Hl, Hs. cbn. rewrite Hn. cbn. rewrite <- app_assoc. cbn.
  unfold bind. rewrite handleButtonPress_is_poll, Hp. reflexivity.
Qed.

(** X11. Redraw minimisation: right after [updateDisplay] has run for a
    given [now], running it again for the same [now] writes nothing to the
    display and changes nothing. *)
Theorem updateDisplay_twice_draws_once (self self1 : TimerDisplay)
    (now : time_t) (w w1 : World) :
  updateDisplay self now w = Done self1 w1 ->
  updateDisplay self1 now w1 = Done self1 w1.
Proof.
  intros H. destruct w as [clk cr wf wr net rq pn pr out].
  unfold updateDisplay, getCurrentTimer, timeSince, difftime, bind, ret,
    undefined, lcd_do in *.
  destruct (nth_error (timers self) (Z.to_nat (currentIndex self)))
    as [t|] eqn:Hn; [| discriminate H].
  cbn in H.
  destruct ((INT32_MIN <=? now - lastTriggerTime (as_Timer t)) &&
            (now - lastTriggerTime (as_Timer t) <=? INT32_MAX)) eqn:Hr;
    [| discriminate H].
  cbn in H.
  destruct (String.eqb (getDisplayName (as_Timer t)) (lastName self)) eqn:En;
    destruct (now - lastTriggerTime (as_Timer t) =? lastSeconds self) eqn:Es;
    cbn in H; inversion H; subst; clear H; cbn;
    rewrite Hn; cbn; rewrite Hr; cbn;
    rewrite ?En, ?Es, ?String.eqb_refl, ?Z.eqb_refl; reflexivity.
Qed.

Lemma fmt_02d_two_digits (z : Z) :
  0 <= z < 100 -> fmt_02d z = two_digits z.
Proof.
  intros Hz.
  assert (All : forallb (fun n => String.eqb (fmt_02d (Z.of_nat n))
                                             (two_digits (Z.of_nat n)))
                        (seq 0 100) = true) by (vm_compute; reflexivity).
  rewrite forallb_forall in All.
  specialize (All (Z.to_nat z)). rewrite Z2Nat.id in All by lia.
  apply String.eqb_eq, All, in_seq. lia.
Qed.

(** X12. For an elapsed time of less than a hundred hours (and not
    negative), when the label or the seconds differ from what was last
    drawn, [updateDisplay] ends by writing the eight characters [HH:MM:SS]
    at column 8 of the second line; before that it clears the display and
    writes the label on the first line only if the label changed.  It
    remembers the label and the seconds it drew. *)
Theorem updateDisplay_draws_hh_mm_ss (self : TimerDisplay) (t : AnyTimer)
    (now : time_t) (w : World) :
  nth_error (timers self) (Z.to_nat (currentIndex self)) = Some t ->
  0 <= now - lastTriggerTime (as_Timer t) < 360000 ->
  String.eqb (name (as_Timer t)) (lastName self) = false \/
  now - lastTriggerTime (as_Timer t) <> lastSeconds self ->
  exists self',
    updateDisplay self now w
    = Done self'
        (after_pins_and_lcd w 0
           ((if String.eqb (name (as_Timer t)) (lastName self) then []
             else [lcd_clear; lcd_setCursor 0 0; lcd_print (name (as_Timer t))])
            ++ [lcd_setCursor 8 1;
                lcd_print (hh_mm_ss (now - lastTriggerTime (as_Timer t)))])) /\
    lastName self' = name (as_Timer t) /\
    lastSeconds self' = now - lastTriggerTime (as_Timer t) /\
    timers self' = timers self /\ currentIndex self' = currentIndex self.
Proof.
  intros Hn Hs Hstale. destruct w as [clk cr wf wr net rq pn pr out].
  set (s := now - lastTriggerTime (as_Timer t)) in *.
  assert (Hfmt : fmt_02d (Z.quot s 3600) ++ ":" ++
                 fmt_02d (Z.quot (Z.rem s 3600) 60) ++ ":" ++ fmt_02d (Z.rem s 60)
                 = hh_mm_ss s).
  { unfold hh_mm_ss.
    rewrite !Z.rem_mod_nonneg by lia.
    rewrite !Z.quot_div_nonneg by (try lia; apply Z.mod_pos_bound; lia).
    assert (0 <= s / 3600 < 100) by (split; [apply Z.div_pos | apply Z.div_lt_upper_bound]; lia).
    assert (0 <= s mod 3600 / 60 < 100).
    { pose proof (Z.mod_pos_bound s 3600 ltac:(lia)).
      split; [apply Z.div_pos | apply Z.div_lt_upper_bound]; lia. }
    assert (0 <= s mod 60 < 100) by (pose proof (Z.mod_pos_bound s 60 ltac:(lia)); lia).
    rewrite !fmt_02d_two_digits by assumption. reflexivity. }
  assert (Hlen : strlen (hh_mm_ss s) = 8) by reflexivity.
  unfold updateDisplay, getCurrentTimer, timeSince, difftime, bind, ret,
    undefined, lcd_do, after_pins_and_lcd, getDisplayName.
  rewrite Hn. cbn -[append fmt_02d Z.quot Z.rem Z.sub Z.max]. fold s.
  assert (Hr : (INT32_MIN <=? s) && (s <=? INT32_MAX) = true).
  { apply andb_true_iff. unfold INT32_MIN, INT32_MAX.
    split; apply Z.leb_le; lia. }
  rewrite Hr. cbn -[append fmt_02d Z.quot Z.rem Z.sub Z.max].
  assert (Hc : negb (String.eqb (name (as_Timer t)) (lastName self))
               || negb (s =? lastSeconds self) = true).
  { destruct Hstale as [E | E].
    - rewrite E. reflexivity.
    - apply Z.eqb_neq in E. rewrite E. apply orb_true_r. }
  rewrite Hc. rewrite Hfmt, Hlen. change (Z.max 0 (16 - 8)) with 8.
  destruct (String.eqb (name (as_Timer t)) (lastName self)) eqn:En; cbn.
  - apply String.eqb_eq in En.
    eexists. split; [rewrite <- !app_assoc; reflexivity|].
    cbn. repeat split. symmetry; exact En.
  - eexists. split; [rewrite <- !app_assoc; reflexivity|].
    cbn. repeat split.
Qed.

Lemma getCurrentTimer_inv (self : TimerDisplay) (t : AnyTimer) (w w' : World) :
  getCurrentTimer self w = Done t w' ->
  nth_error (timers self) (Z.to_nat (currentIndex self)) = Some t /\ w' = w.
Proof.
  unfold getCurrentTimer, ret, undefined.
  destruct (nth_error (timers self) (Z.to_nat (currentIndex self)));
    intros H; inversion H; split; reflexivity.
Qed.

Lemma checkButton_frame (self self' : TimerDisplay) (now : time_t)
    (w w' : World) :
  checkButton self now w = Done self' w' ->
  same_timers_except (Z.to_nat (currentIndex self)) self self' /\
  currentIndex self' = currentIndex self /\
  pins w' = pins w /\ pin_reads w' = S (pin_reads w).
Proof.
  intros H. destruct w as [clk cr wf wr net rq pn pr out].
  unfold checkButton, bind, ret, delay, digitalRead, lcd_do in H. cbn in H.
  destruct (Bool.eqb (pn pr (actionButtonPin self)) LOW &&
            Bool.eqb (lastButtonState self) HIGH).
  - destruct (getCurrentTimer self _) as [t w0| |] eqn:G; try discriminate H.
    apply getCurrentTimer_inv in G. destruct G as [Hn ->].
    destruct (handleButtonPress t now _) as [[b t'] w1| |] eqn:P;
      try discriminate H.
    destruct (handleButtonPress_frame _ _ _ _ _ _ P) as (Hname & Hkind & Hp & Hr & _).
    cbn in H. inversion H; subst; clear H. cbn in *.
    destruct (set_current_same_timers self t t' Hn Hname Hkind) as (A & B & Cc & D & E).
    unfold same_timers_except, labels in *. cbn in *.
    repeat split; assumption.
  - cbn in H. inversion H; subst; clear H.
    unfold same_timers_except, labels. cbn. repeat split.
Qed.

Lemma updateDisplay_frame (self self' : TimerDisplay) (now : time_t)
    (w w' : World) :
  updateDisplay self now w = Done self' w' ->
  timers self' = timers self /\ timerCount self' = timerCount self /\
  currentIndex self' = currentIndex self /\
  actionButtonPin self' = actionButtonPin self /\
  pins w' = pins w /\ pin_reads w' = pin_reads w.
Proof.
  intros H. destruct w as [clk cr wf wr net rq pn pr out].
  unfold updateDisplay, getCurrentTimer, timeSince, bind, ret, undefined,
    lcd_do in H.
  destruct (nth_error (timers self) (Z.to_nat (currentIndex self)));
    [| discriminate H].
  cbn in H.
  match type of H with
  | context [if ?c then _ else _] => destruct c; [| discriminate H]
  end.
  cbn in H.
  repeat match type of H with
         | context [if ?c then _ else _] => destruct c; cbn in H
         end;
    inversion H; subst; cbn; repeat split.
Qed.

Lemma checkNavigationButtons_frame (self self' : TimerDisplay) (w w' : World) :
  checkNavigationButtons self w = Done self' w' ->
  timers self' = timers self /\ timerCount self' = timerCount self /\
  actionButtonPin self' = actionButtonPin self /\
  pins w' = pins w /\ pin_reads w' = S (S (pin_reads w)).
Proof.
  intros H. destruct w as [clk cr wf wr net rq pn pr out].
  unfold checkNavigationButtons, nextTimer, previousTimer, bind, ret,
    undefined, delay, digitalRead in H. cbn in H.
  destruct (timerCount self =? 0) eqn:E0;
    destruct (Bool.eqb (pn pr DOWN_BUTTON) LOW); cbn in H;
    try discriminate H;
    destruct (Bool.eqb (pn (S pr) UP_BUTTON) LOW); cbn in H;
    try rewrite E0 in H; cbn in H;
    try discriminate H; inversion H; subst; cbn; repeat split.
Qed.

(** X13. One tick of [update] that returns has read each of the three
    pins once; it has left the number of timers, their order, labels and
    kinds as they were, and no timer other than the one selected when the
    tick began has changed state. *)
Theorem update_changes_only_selected_timer (self self' : TimerDisplay)
    (now : time_t) (w w' : World) :
  update self now w = Done self' w' ->
  (Z.to_nat (currentIndex self) < List.length (timers self))%nat /\
  same_timers_except (Z.to_nat (currentIndex self)) self self' /\
  pin_reads w' = (3 + pin_reads w)%nat.
Proof.
  assert (Rest : forall self1 w1,
             bind (checkButton self1 now)
                  (fun s => bind (updateDisplay s now)
                                 (fun s => checkNavigationButtons s)) w1
             = Done self' w' ->
             same_timers_except (Z.to_nat (currentIndex self1)) self1 self' /\
             pin_reads w' = (3 + pin_reads w1)%nat).
  { intros self1 w1 H. unfold bind in H.
    destruct (checkButton self1 now w1) as [self2 w2| |] eqn:E2; try discriminate H.
    destruct (checkButton_frame _ _ _ _ _ E2) as (F2 & I2 & _ & R2).
    destruct (updateDisplay self2 now w2) as [self3 w3| |] eqn:E3; try discriminate H.
    destruct (updateDisplay_frame _ _ _ _ _ E3) as (T3 & N3 & I3 & A3 & _ & R3).
    destruct (checkNavigationButtons_frame _ _ _ _ H) as (T4 & N4 & A4 & _ & R4).
    split; [| lia].
    apply (same_timers_except_trans _ self1 self2 self'); [exact F2|].
    unfold same_timers_except, labels. rewrite T4, T3, N4, N3, A4, A3.
    repeat split; reflexivity. }
  intros H. unfold update in H. unfold bind at 1 in H.
  destruct (getCurrentTimer self w) as [t w0| |] eqn:G; try discriminate H.
  apply getCurrentTimer_inv in G. destruct G as [Hn ->].
  assert (Hlt : (Z.to_nat (currentIndex self) < List.length (timers self))%nat)
    by (apply nth_error_Some; congruence).
  split; [exact Hlt|].
  unfold bind at 1 in H.
  destruct (isPollable t).
  - unfold bind at 1 in H.
    destruct (checkPoll t now w) as [[b t'] w1| |] eqn:P; try discriminate H.
    destruct (checkPoll_frame _ _ _ _ _ _ P) as (Hname & Hkind & _ & Hr & _).
    cbn [ret snd] in H. apply Rest in H. destruct H as [F R].
    cbn [currentIndex set_current] in F. rewrite Hr in R. split; [| exact R].
    apply (same_timers_except_trans _ self (set_current self t') self'); [| exact F].
    apply (set_current_same_timers self t t' Hn Hname Hkind).
  - cbn [ret] in H. apply Rest in H. exact H.
Qed.

Lemma set_currentIndex_same (self : TimerDisplay) :
  set_currentIndex self (currentIndex self) = self.
Proof. destruct self; reflexivity. Qed.

Lemma set_currentIndex_twice (self : TimerDisplay) (i j : Z) :
  set_currentIndex (set_currentIndex self i) j = set_currentIndex self j.
Proof. reflexivity. Qed.

(** X15. With N timers (1 <= N <= 255) and the index inside [0, N),
    [nextTimer] yields [(index + 1) mod N], again inside [0, N).  Away
    from the ends the two moves undo each other: [nextTimer] then
    [previousTimer] from an index below N-1, and [previousTimer] then
    [nextTimer] from an index above 0, give back the display as it was. *)
Theorem navigation_round_trips (self : TimerDisplay) (w : World) :
  1 <= timerCount self <= 255 ->
  0 <= currentIndex self < timerCount self ->
  nextTimer self w
  = Done (set_currentIndex self ((currentIndex self + 1) mod timerCount self)) w /\
  0 <= (currentIndex self + 1) mod timerCount self < timerCount self /\
  (currentIndex self + 1 < timerCount self ->
   bind (nextTimer self) previousTimer w = Done self w) /\
  (1 <= currentIndex self ->
   bind (previousTimer self) nextTimer w = Done self w).
Proof.
  intros HN Hi.
  assert (E0 : (timerCount self =? 0) = false) by (apply Z.eqb_neq; lia).
  assert (Hnext : nextTimer self w
                  = Done (set_currentIndex self
                            ((currentIndex self + 1) mod timerCount self)) w).
  { unfold nextTimer, ret, to_uint8. rewrite E0.
    rewrite Z.rem_mod_nonneg by lia.
    pose proof (Z.mod_pos_bound (currentIndex self + 1) (timerCount self) ltac:(lia)).
    rewrite (Z.mod_small _ 256) by lia. reflexivity. }
  split; [exact Hnext|].
  split; [apply Z.mod_pos_bound; lia|].
  split.
  - intros Hlt. unfold bind. rewrite Hnext.
    unfold previousTimer, ret, to_uint8. cbn [timerCount currentIndex set_currentIndex].
    rewrite E0. rewrite (Z.mod_small (currentIndex self + 1)) by lia.
    replace (currentIndex self + 1 - 1) with (currentIndex self) by lia.
    rewrite Z.rem_small by lia. rewrite Z.mod_small by lia.
    rewrite set_currentIndex_twice. rewrite set_currentIndex_same. reflexivity.
  - intros Hge. unfold bind, previousTimer, ret, to_uint8. rewrite E0.
    rewrite (Z.rem_small (currentIndex self - 1)) by lia.
    rewrite (Z.mod_small (currentIndex self - 1)) by lia.
    unfold nextTimer, ret, to_uint8. cbn [timerCount currentIndex set_currentIndex].
    rewrite E0.
    replace (currentIndex self - 1 + 1) with (currentIndex self) by lia.
    rewrite Z.rem_small by lia. rewrite Z.mod_small by lia.
    rewrite set_currentIndex_twice. rewrite set_currentIndex_same. reflexivity.
Qed.

(** X18. Away from the two ends of the list (index at least 1 and below
    N-1), one pass of [checkNavigationButtons] reads the down pin, then the
    up pin, and moves the index by one forward if the down pin is low and
    by one backward if the up pin is low: both low cancel out, both high
    leave the index alone.  Nothing is written to the display. *)
Theorem checkNavigationButtons_moves_by_pin_levels (self : TimerDisplay)
    (w : World) :
  timerCount self <= 255 ->
  1 <= currentIndex self ->
  currentIndex self + 1 < timerCount self ->
  checkNavigationButtons self w
  = Done (set_currentIndex self
            (currentIndex self
             + (if pins w (pin_reads w) DOWN_BUTTON then 0 else 1)
             - (if pins w (S (pin_reads w)) UP_BUTTON then 0 else 1)))
         (after_pins_and_lcd w 2 []).
Proof.
  intros HN Hlo Hhi. destruct w as [clk cr wf wr net rq pn pr out].
  assert (E0 : (timerCount self =? 0) = false) by (apply Z.eqb_neq; lia).
  unfold checkNavigationButtons, nextTimer, previousTimer, bind, ret, delay,
    digitalRead, after_pins_and_lcd, to_uint8.
  cbn -[DOWN_BUTTON UP_BUTTON Z.rem Z.modulo Z.add Z.sub].
  rewrite app_nil_r.
  destruct (pn pr DOWN_BUTTON) eqn:Ed; destruct (pn (S pr) UP_BUTTON) eqn:Eu;
    cbn -[DOWN_BUTTON UP_BUTTON Z.rem Z.modulo Z.add Z.sub];
    rewrite ?E0; cbn -[DOWN_BUTTON UP_BUTTON Z.rem Z.modulo Z.add Z.sub];
    rewrite ?Eu; cbn -[DOWN_BUTTON UP_BUTTON Z.rem Z.modulo Z.add Z.sub];
    rewrite ?E0.
  - rewrite Z.add_0_r, Z.sub_0_r, set_currentIndex_same. reflexivity.
  - rewrite Z.add_0_r. rewrite Z.rem_small by lia. rewrite Z.mod_small by lia.
    reflexivity.
  - rewrite Z.sub_0_r. rewrite Z.rem_small by lia. rewrite Z.mod_small by lia.
    reflexivity.
  - rewrite (Z.rem_small (currentIndex self + 1)) by lia.
    rewrite (Z.mod_small (currentIndex self + 1)) by lia.
    rewrite Z.rem_small by lia. rewrite Z.mod_small by lia. reflexivity.
Qed.

Lemma updateDisplay_no_network (self self' : TimerDisplay) (now : time_t)
    (w w' : World) :
  updateDisplay self now w = Done self' w' ->
  clock_reads w' = clock_reads w /\ wifi_reads w' = wifi_reads w /\
  requests w' = requests w.
Proof.
  intros H. destruct w as [clk cr wf wr net rq pn pr out].
  unfold updateDisplay, getCurrentTimer, timeSince, bind, ret, undefined,
    lcd_do in H.
  destruct (nth_error (timers self) (Z.to_nat (currentIndex self)));
    [| discriminate H].
  cbn in H.
  match type of H with
  | context [if ?c then _ else _] => destruct c; [| discriminate H]
  end.
  cbn in H.
  repeat match type of H with
         | context [if ?c then _ else _] => destruct c; cbn in H
         end;
    inversion H; subst; cbn; repeat split.
Qed.

Lemma checkNavigationButtons_no_network (self self' : TimerDisplay)
    (w w' : World) :
  checkNavigationButtons self w = Done self' w' ->
  clock_reads w' = clock_reads w /\ wifi_reads w' = wifi_reads w /\
  requests w' = requests w.
Proof.
  intros H. destruct w as [clk cr wf wr net rq pn pr out].
  unfold checkNavigationButtons, nextTimer, previousTimer, bind, ret,
    undefined, delay, digitalRead in H. cbn in H.
  destruct (timerCount self =? 0) eqn:E0;
    destruct (Bool.eqb (pn pr DOWN_BUTTON) LOW); cbn in H;
    try discriminate H;
    destruct (Bool.eqb (pn (S pr) UP_BUTTON) LOW); cbn in H;
    try rewrite E0 in H; cbn in H;
    try discriminate H; inversion H; subst; cbn; repeat split.
Qed.

Lemma checkButton_no_network (self self' : TimerDisplay) (bt : Timer)
    (now : time_t) (w w' : World) :
  nth_error (timers self) (Z.to_nat (currentIndex self)) = Some (a_ButtonTimer bt) ->
  checkButton self now w = Done self' w' ->
  clock_reads w' = clock_reads w /\ wifi_reads w' = wifi_reads w /\
  requests w' = requests w.
Proof.
  intros Hn H. destruct w as [clk cr wf wr net rq pn pr out].
  unfold checkButton, bind, ret, delay, digitalRead, lcd_do, getCurrentTimer in H.
  cbn in H. rewrite Hn in H.
  destruct (Bool.eqb (pn pr (actionButtonPin self)) LOW &&
            Bool.eqb (lastButtonState self) HIGH);
    cbn in H; inversion H; subst; cbn; repeat split.
Qed.

(** X14. A tick of [update] that begins with a button timer selected
    makes no HTTP request, does not ask for the WiFi status and does not
    read the clock, whatever the buttons do: only polling timers bring
    network traffic into the loop. *)
Theorem update_on_button_timer_stays_offline (self self' : TimerDisplay)
    (bt : Timer) (now : time_t) (w w' : World) :
  nth_error (timers self) (Z.to_nat (currentIndex self)) = Some (a_ButtonTimer bt) ->
  update self now w = Done self' w' ->
  clock_reads w' = clock_reads w /\ wifi_reads w' = wifi_reads w /\
  requests w' = requests w.
Proof.
  intros Hn H. unfold update in H. unfold bind at 1 in H.
  unfold getCurrentTimer at 1 in H. rewrite Hn in H. unfold ret at 1 in H.
  unfold bind at 1 in H. cbn [isPollable] in H. unfold ret at 1 in H.
  unfold bind in H.
  destruct (checkButton self now w) as [self2 w2| |] eqn:E2; try discriminate H.
  destruct (checkButton_no_network _ _ _ _ _ _ Hn E2) as (A2 & B2 & C2).
  destruct (updateDisplay self2 now w2) as [self3 w3| |] eqn:E3; try discriminate H.
  destruct (updateDisplay_no_network _ _ _ _ _ E3) as (A3 & B3 & C3).
  destruct (checkNavigationButtons_no_network _ _ _ _ H) as (A4 & B4 & C4).
  repeat split; congruence.
Qed.

End Properties.

(* ================================================================== *)
(** * The properties on concrete runs *)
(* ================================================================== *)

#[local] Existing Instance RefJson.
#[local] Existing Instance RefLibc.

Lemma navigation_at_the_ends_witness :
  let self := TimerDisplay_new four_button_timers 4 ACTION_BUTTON in
  let w := steady_world 1704200100 (ok_exchange JNull) all_released in
  1 <= timerCount self <= 255 /\
  nextTimer (set_currentIndex self 3) w = Done (set_currentIndex self 0) w /\
  previousTimer self w = Done (set_currentIndex self 255) w.
Proof.
  intros self w.
  assert (HN : 1 <= timerCount self <= 255) by (cbn; lia).
  split; [exact HN|]. split.
  - apply (proj1 (navigation_at_the_ends (set_currentIndex self 3) w HN)).
    reflexivity.
  - apply (proj2 (navigation_at_the_ends self w HN)). reflexivity.
Defined.

Lemma identity_length_checks_witness :
  let identity := repeat_char 254 "a" in
  let w := steady_world 1704200100 (ok_exchange JNull) all_released in
  MAX_USERNAME_LENGTH < strlen identity /\
  MAX_HANDLE_LENGTH < strlen identity /\
  GitHubPollingTimer_new "Last GitHub push" identity 300 1704200000 w
  = Thrown "GitHub username too long" /\
  BlueskyPollingTimer_new "" "Last Bsky post" identity 300 1704200000 w
  = Undefined.
Proof.
  intros identity w.
  assert (H1 : MAX_USERNAME_LENGTH < strlen identity) by (vm_compute; reflexivity).
  assert (H2 : MAX_HANDLE_LENGTH < strlen identity) by (vm_compute; reflexivity).
  split; [exact H1|]. split; [exact H2|]. split.
  - exact (proj1 (identity_length_checks "" "Last GitHub push" identity 300
                    1704200000 w) H1).
  - exact (proj2 (identity_length_checks "" "Last Bsky post" identity 300
                    1704200000 w) H2).
Defined.

Lemma failed_check_leaves_timer_untouched_witness :
  let w := steady_world 1704200400 (mk_exchange true 404 None) all_released in
  fails_with StatusFailure sample_github w = true /\
  exists self' w',
    poll sample_github w = Done (false, self') w' /\
    lastTriggerTime (super self') = 1704200000 /\
    lastPollTime self' = 1704200000.
Proof.
  intros w.
  assert (H : fails_with StatusFailure sample_github w = true) by reflexivity.
  split; [exact H|].
  destruct (failed_check_leaves_timer_untouched StatusFailure sample_github w
              1704200400 H) as (self' & w' & P & T & L & _).
  exists self', w'. split; [exact P|]. split; [exact T | exact L].
Defined.

Lemma successful_check_stamps_completion_time_witness :
  let w := steady_world 1704200400
             (ok_exchange (github_feed "2024-01-01T12:00:00Z")) all_released in
  exists self' w',
    poll sample_github w = Done (true, self') w' /\
    lastPollTime self' = clock w 1 /\
    clock w 1 = 1704200401.
Proof.
  intros w. do 2 eexists.
  assert (P : poll sample_github w
              = Done (true, set_lastPollTime (trigger_p sample_github 1704110400)
                                             1704200401)
                     (mk_world (clock w) 2 (wifi w) 1 (network w) 1 (pins w) 0 []))
    by reflexivity.
  split; [exact P|].
  split; [| reflexivity].
  exact (proj2 (proj1 (successful_check_stamps_completion_time _ _ true w _ P))).
Defined.

Lemma feed_check_sets_anchor_to_event_time_witness :
  let wg := steady_world 1704200400
              (ok_exchange (github_feed "2024-01-01T12:00:00Z")) all_released in
  let wb := steady_world 1704200400
              (ok_exchange (bluesky_feed "2024-01-01T12:00:00.000Z")) all_released in
  let t := mk_tm 0 0 12 1 0 124 0 0 0 in
  is_feed (derived sample_github) = true /\
  is_feed (derived sample_bluesky) = true /\
  strptime "2024-01-01T12:00:00Z" "%Y-%m-%dT%H:%M:%S" tm_zero = (true, t) /\
  strptime "2024-01-01T12:00:00.000Z" "%Y-%m-%dT%H:%M:%S" tm_zero = (true, t) /\
  mktime t = 1704110400 /\
  (exists self' w',
     poll sample_github wg = Done (true, self') w' /\
     lastTriggerTime (super self') = mktime t) /\
  (exists self' w',
     poll sample_bluesky wb = Done (true, self') w' /\
     lastTriggerTime (super self') = mktime t).
Proof.
  intros wg wb t.
  assert (Fg : is_feed (derived sample_github) = true) by reflexivity.
  assert (Fb : is_feed (derived sample_bluesky) = true) by reflexivity.
  split; [exact Fg|]. split; [exact Fb|].
  split; [reflexivity|]. split; [reflexivity|]. split; [reflexivity|].
  split.
  - exact (proj1 (feed_check_sets_anchor_to_event_time sample_github wg Fg)
             (github_feed "2024-01-01T12:00:00Z") "2024-01-01T12:00:00Z" t
             eq_refl eq_refl eq_refl eq_refl eq_refl eq_refl eq_refl).
  - exact (proj1 (feed_check_sets_anchor_to_event_time sample_bluesky wb Fb)
             (bluesky_feed "2024-01-01T12:00:00.000Z") "2024-01-01T12:00:00.000Z" t
             eq_refl eq_refl eq_refl eq_refl eq_refl eq_refl eq_refl).
Defined.

Lemma threshold_check_resets_only_above_zero_witness :
  let w := steady_world 1704200900
             (ok_exchange (current_answer (float_of 7 (-1)))) all_released in
  let cold := steady_world 1704200900
                (ok_exchange (current_answer (float_of (-7) (-1)))) all_released in
  shouldPoll sample_weather 1704200900 = true /\
  (exists self' w',
     PollingTimer_checkPoll sample_weather 1704200900 w = Done (true, self') w' /\
     lastTriggerTime (super self') = 1704200900 /\
     lastPollTime self' = 1704200901) /\
  (exists self' w',
     PollingTimer_checkPoll sample_weather 1704200900 cold = Done (true, self') w' /\
     lastTriggerTime (super self') = 1704200000 /\
     lastPollTime self' = 1704200900).
Proof.
  intros w cold.
  assert (D : shouldPoll sample_weather 1704200900 = true) by reflexivity.
  split; [exact D|]. split.
  - destruct (threshold_check_resets_only_above_zero sample_weather w
                (current_answer (float_of 7 (-1))) 1704200900
                eq_refl D eq_refl eq_refl eq_refl eq_refl eq_refl)
      as (self' & w' & Hc & _ & Ha & Hp).
    exists self', w'. split; [exact Hc|]. split; [exact Ha | exact Hp].
  - destruct (threshold_check_resets_only_above_zero sample_weather cold
                (current_answer (float_of (-7) (-1))) 1704200900
                eq_refl D eq_refl eq_refl eq_refl eq_refl eq_refl)
      as (self' & w' & Hc & _ & Ha & Hp).
    exists self', w'. split; [exact Hc|]. split; [exact Ha | exact Hp].
Defined.

Lemma backfill_finds_newest_sample_above_zero_witness :
  let w := steady_world 1704200100 (ok_exchange sample_archive) all_released in
  exists self' w',
    WeatherPollingTimer_new "Last above 0" (float_of 49 0) (float_of (-97) 0) 900 w
    = Done self' w' /\
    lastTriggerTime (super self') = 1703898000.
Proof.
  intros w.
  assert (WF : forall i, (i < size (sample_archive : JsonVariant).<"hourly">.<"time">)%nat ->
               as_cstr (sample_archive : JsonVariant).<"hourly">.<"time">.[i] <> None).
  { intros i Hi. cbn in Hi.
    destruct i as [|[|[|i]]]; cbn; try discriminate. lia. }
  destruct (backfill_finds_newest_sample_above_zero "Last above 0"
              (float_of 49 0) (float_of (-97) 0) 900 w sample_archive
              eq_refl eq_refl eq_refl eq_refl eq_refl WF)
    as (self' & w' & Hnew & Hcase).
  assert (P : WeatherPollingTimer_new "Last above 0" (float_of 49 0)
                (float_of (-97) 0) 900 w
              = Done (trigger_p (PollingTimer_new "Last above 0" 900 1704200100
                                   (Weather (float_of 49 0) (float_of (-97) 0) zero_f))
                                1703898000)
                     (mk_world (clock w) 2 (wifi w) 0 (network w) 1 (pins w) 0 []))
    by reflexivity.
  exists self', w'. split; [exact Hnew|].
  pose proof (f_equal result_of Hnew) as E. rewrite P in E.
  cbn [result_of] in E. injection E as <-. reflexivity.
Defined.

Lemma failed_backfill_anchors_at_now_witness :
  let w := steady_world 1704200100 (mk_exchange true 503 None) all_released in
  backfill_fails (next_exchange w) = true /\
  exists self' w',
    WeatherPollingTimer_new "Last above 0" (float_of 49 0) (float_of (-97) 0) 900 w
    = Done self' w' /\
    lastTriggerTime (super self') = 1704200101.
Proof.
  intros w.
  assert (H : backfill_fails (next_exchange w) = true) by reflexivity.
  split; [exact H|].
  destruct (failed_backfill_anchors_at_now "Last above 0" (float_of 49 0)
              (float_of (-97) 0) 900 w H) as (self' & w' & Hnew & Ha & _).
  exists self', w'. split; [exact Hnew | exact Ha].
Defined.

Lemma anchor_moves_only_to_trigger_value_witness :
  let t := a_ButtonTimer (ButtonTimer_new "Last drank water" 1704200000) in
  let t' := a_ButtonTimer (ButtonTimer_new "Last drank water" 1704200500) in
  let w := steady_world 1704200500 (ok_exchange JNull) all_released in
  handleButtonPress t 1704200500 w = Done (true, t') w /\
  lastTriggerTime (as_Timer t) <= lastTriggerTime (as_Timer t').
Proof.
  intros t t' w.
  assert (H : handleButtonPress t 1704200500 w = Done (true, t') w) by reflexivity.
  split; [exact H|].
  apply (proj2 (anchor_moves_only_to_trigger_value t t' 1704200500 true w w
                  (or_introl H))).
  cbn. lia.
Defined.

(** C2 fails as stated: a GitHub timer anchored at 1704200000 whose check
    finds a newest event dated 2024-01-01T12:00:00 (1704110400) ends with
    the earlier time in [lastTriggerTime]; the constructor's own first
    check does the same to the initial time it was given. *)
Lemma feed_check_moves_anchor_backward :
  let w := steady_world 1704200400
             (ok_exchange (github_feed "2024-01-01T12:00:00Z")) all_released in
  (exists self' w',
     PollingTimer_checkPoll sample_github 1704200400 w = Done (true, self') w' /\
     lastTriggerTime (super sample_github) = 1704200000 /\
     lastTriggerTime (super self') = 1704110400 /\
     lastTriggerTime (super self') < lastTriggerTime (super sample_github)) /\
  (exists self' w',
     GitHubPollingTimer_new "Last GitHub push" "evjrob" 300 1704200000 w
     = Done self' w' /\
     lastTriggerTime (super self') = 1704110400).
Proof.
  intros w. split.
  - exists (set_lastPollTime (trigger_p sample_github 1704110400) 1704200401),
           (mk_world (clock w) 2 (wifi w) 1 (network w) 1 (pins w) 0 []).
    split; [reflexivity|].
    split; [reflexivity|]. split; reflexivity.
  - exists (set_lastPollTime (trigger_p sample_github 1704110400) 1704200401),
           (mk_world (clock w) 2 (wifi w) 1 (network w) 1 (pins w) 0 []).
    split; reflexivity.
Qed.

(** C9 fails in the code: with four timers, index 0 and the down button
    held low while the other two buttons stay released, the index is 1
    after one tick, 2 after two ticks and 3 after three: one advance per
    tick, not one per press. *)
Theorem held_down_button_advances_every_tick :
  let display := TimerDisplay_new four_button_timers 4 ACTION_BUTTON in
  let w := steady_world 1704200100 (ok_exchange JNull) down_held in
  option_map currentIndex (result_of (loop 1 display w)) = Some 1 /\
  option_map currentIndex (result_of (loop 2 display w)) = Some 2 /\
  option_map currentIndex (result_of (loop 3 display w)) = Some 3.
Proof.
  intros display w. repeat split; vm_compute; reflexivity.
Qed.

(** The action button, by contrast, is edge detected: held low over three
    ticks it resets the selected timer once, on the first tick. *)
Example held_action_button_fires_once :
  let display := TimerDisplay_new four_button_timers 4 ACTION_BUTTON in
  let w := steady_world 1704200100 (ok_exchange JNull) action_held in
  option_map (fun d => map (fun t => lastTriggerTime (as_Timer t)) (timers d))
             (result_of (loop 3 display w))
  = Some [1704200100; 1704200000; 1704200000; 1704200000].
Proof. vm_compute. reflexivity. Qed.

(** The spec's example for the feed pollers: a newest event stamped
    2024-01-01T12:00:00, checked at wall time 1704200400. *)
Example github_event_time_example :
  let w := steady_world 1704200400
             (ok_exchange (github_feed "2024-01-01T12:00:00")) all_released in
  option_map (fun r => (fst r, lastTriggerTime (super (snd r)), lastPollTime (snd r)))
             (result_of (poll sample_github w))
  = Some (true, 1704110400, 1704200401).
Proof. vm_compute. reflexivity. Qed.

(** [previousTimer] at index 0 with four timers, and the tick after. *)
Example previousTimer_leaves_the_array :
  let display := TimerDisplay_new four_button_timers 4 ACTION_BUTTON in
  let w := steady_world 1704200100 (ok_exchange JNull) all_released in
  option_map currentIndex (result_of (previousTimer display w)) = Some 255 /\
  update (set_currentIndex display 255) 1704200100 w = Undefined.
Proof. split; vm_compute; reflexivity. Qed.

(** A feed whose newest item carries a number where the timestamp string
    is expected: the test on the field passes, the conversion to
    [const char *] gives the null pointer, and [strptime] is called on it. *)
Example timestamp_that_is_not_a_string :
  let w := steady_world 1704200400
             (ok_exchange (JArray [JObject [("created_at", JNumber (float_of 5 0))]]))
             all_released in
  poll sample_github w = Undefined.
Proof. reflexivity. Qed.

(** ** The further properties on concrete runs *)

Lemma checkPoll_gate_after_success_witness :
  let w := steady_world 1704200400
             (ok_exchange (github_feed "2024-01-01T12:00:00Z")) all_released in
  let self' := set_lastPollTime (trigger_p sample_github 1704110400) 1704200401 in
  let w' := mk_world (clock w) 2 (wifi w) 1 (network w) 1 (pins w) 0 [] in
  poll sample_github w = Done (true, self') w' /\
  1704200500 - lastPollTime self' < pollingInterval sample_github /\
  PollingTimer_checkPoll self' 1704200500 w' = Done (false, self') w'.
Proof.
  intros w self' w'.
  assert (P : poll sample_github w = Done (true, self') w') by reflexivity.
  assert (G : 1704200500 - lastPollTime self' < pollingInterval sample_github)
    by (cbn; lia).
  split; [exact P|]. split; [exact G|].
  exact (checkPoll_gate_after_success sample_github self' w w' w' 1704200500 P G).
Defined.

Lemma failed_check_is_due_again_witness :
  let w := steady_world 1704200400 (mk_exchange true 404 None) all_released in
  let w' := mk_world (clock w) 0 (wifi w) 1 (network w) 1 (pins w) 0 [] in
  shouldPoll sample_github 1704200400 = true /\
  PollingTimer_checkPoll sample_github 1704200400 w = Done (false, sample_github) w' /\
  shouldPoll sample_github 1704200401 = true.
Proof.
  intros w w'.
  assert (D : shouldPoll sample_github 1704200400 = true) by reflexivity.
  assert (P : PollingTimer_checkPoll sample_github 1704200400 w
              = Done (false, sample_github) w') by reflexivity.
  split; [exact D|]. split; [exact P|].
  apply (failed_check_is_due_again sample_github sample_github w w'
           1704200400 1704200401 D P).
  lia.
Defined.

Lemma poll_keeps_identity_witness :
  let w := steady_world 1704200400
             (ok_exchange (github_feed "2024-01-01T12:00:00Z")) all_released in
  let self' := set_lastPollTime (trigger_p sample_github 1704110400) 1704200401 in
  let w' := mk_world (clock w) 2 (wifi w) 1 (network w) 1 (pins w) 0 [] in
  poll sample_github w = Done (true, self') w' /\
  name (super self') = "Last GitHub push" /\
  pollingInterval self' = 300 /\
  derived self' = GitHub "evjrob".
Proof.
  intros w self' w'.
  assert (P : poll sample_github w = Done (true, self') w') by reflexivity.
  destruct (poll_keeps_identity sample_github self' true w w' P)
    as (A & B & F & _).
  split; [exact P|]. split; [exact A|]. split; [exact B|]. exact (F eq_refl).
Defined.

Lemma poll_io_budget_witness :
  let w := mk_world (fun n => 1704200400 + Z.of_nat n) 0 (fun _ => false) 0
                    (fun _ => ok_exchange JNull) 0 (fun _ => all_released) 0 [] in
  let w' := mk_world (clock w) 0 (wifi w) 1 (network w) 0 (pins w) 0 [] in
  poll sample_github w = Done (false, sample_github) w' /\
  next_wifi w = false /\
  requests w' = requests w /\ clock_reads w' = clock_reads w.
Proof.
  intros w w'.
  assert (P : poll sample_github w = Done (false, sample_github) w') by reflexivity.
  assert (D : next_wifi w = false) by reflexivity.
  split; [exact P|]. split; [exact D|].
  destruct (poll_io_budget sample_github sample_github false w w' P)
    as (_ & _ & _ & _ & Hdown).
  exact (proj2 (Hdown D)).
Defined.




Lemma initTime_waits_for_the_clock_witness :
  let w := steady_world 86398 (ok_exchange JNull) all_released in
  initTime 5 w = Done true (after_clock_reads w 3).
Proof.
  intros w.
  apply (initTime_waits_for_the_clock w 2 5).
  - intros i Hi. destruct i as [|[|i]]; [reflexivity | reflexivity | lia].
  - vm_compute. discriminate.
  - lia.
Defined.

Lemma checkButton_fires_only_on_falling_edge_witness :
  let self := set_lastButtonState
                (TimerDisplay_new four_button_timers 4 ACTION_BUTTON) LOW in
  let w := steady_world 1704200100 (ok_exchange JNull) action_held in
  lastButtonState self = LOW /\
  checkButton self 1704200100 w
  = Done self (after_pins_and_lcd w 1 []).
Proof.
  intros self w.
  assert (H : lastButtonState self = LOW) by reflexivity.
  split; [exact H|].
  exact (checkButton_fires_only_on_falling_edge self 1704200100 w (or_intror H)).
Defined.

Lemma checkButton_press_resets_button_timer_witness :
  let self := TimerDisplay_new four_button_timers 4 ACTION_BUTTON in
  let w := steady_world 1704200100 (ok_exchange JNull) action_held in
  pins w (pin_reads w) (actionButtonPin self) = LOW /\
  lastButtonState self = HIGH /\
  exists self',
    checkButton self 1704200100 w
    = Done self' (after_pins_and_lcd w 1 [lcd_setCursor 0 1; lcd_print blank_line]) /\
    map (fun t => lastTriggerTime (as_Timer t)) (timers self')
    = [1704200100; 1704200000; 1704200000; 1704200000].
Proof.
  intros self w.
  assert (L : pins w (pin_reads w) (actionButtonPin self) = LOW) by reflexivity.
  assert (S : lastButtonState self = HIGH) by reflexivity.
  split; [exact L|]. split; [exact S|].
  eexists. split.
  - exact (proj1 (checkButton_press_resets_button_timer self
                    (ButtonTimer_new "one" 1704200000) 1704200100 w L S eq_refl)).
  - reflexivity.
Defined.

Lemma checkButton_press_forces_check_witness :
  let self := TimerDisplay_new [a_PollingTimer sample_github] 1 ACTION_BUTTON in
  let w := steady_world 1704200100
             (ok_exchange (github_feed "2024-01-01T12:00:00Z")) action_held in
  let p' := set_lastPollTime (trigger_p sample_github 1704110400) 1704200101 in
  let w' := mk_world (clock w) 2 (wifi w) 1 (network w) 1 (pins w) 1
                     [lcd_setCursor 0 1; lcd_print blank_line] in
  shouldPoll sample_github 1704200100 = false /\
  checkButton self 1704200100 w
  = Done (set_lastButtonState (set_current self (a_PollingTimer p')) LOW) w'.
Proof.
  intros self w p' w'. split; [reflexivity|].
  assert (P : poll sample_github
                (after_pins_and_lcd w 1 [lcd_setCursor 0 1; lcd_print blank_line])
              = Done (true, p') w') by reflexivity.
  exact (checkButton_press_forces_check self sample_github p' true 1704200100
           w w' eq_refl eq_refl eq_refl P).
Defined.

Lemma updateDisplay_twice_draws_once_witness :
  let self := TimerDisplay_new four_button_timers 4 ACTION_BUTTON in
  let w := steady_world 1704200100 (ok_exchange JNull) all_released in
  let self1 := set_lastSeconds (set_lastName self "one") 100 in
  let w1 := after_pins_and_lcd w 0
              [lcd_clear; lcd_setCursor 0 0; lcd_print "one";
               lcd_setCursor 8 1; lcd_print "00:01:40"] in
  updateDisplay self 1704200100 w = Done self1 w1 /\
  updateDisplay self1 1704200100 w1 = Done self1 w1.
Proof.
  intros self w self1 w1.
  assert (P : updateDisplay self 1704200100 w = Done self1 w1) by reflexivity.
  split; [exact P|].
  exact (updateDisplay_twice_draws_once self self1 1704200100 w w1 P).
Defined.

Lemma updateDisplay_draws_hh_mm_ss_witness :
  let self := TimerDisplay_new four_button_timers 4 ACTION_BUTTON in
  let w := steady_world 1704203761 (ok_exchange JNull) all_released in
  0 <= 1704203761 - 1704200000 < 360000 /\
  exists self',
    updateDisplay self 1704203761 w
    = Done self'
        (after_pins_and_lcd w 0
           [lcd_clear; lcd_setCursor 0 0; lcd_print "one";
            lcd_setCursor 8 1; lcd_print "01:02:41"]).
Proof.
  intros self w.
  assert (R : 0 <= 1704203761 - 1704200000 < 360000) by lia.
  split; [exact R|].
  destruct (updateDisplay_draws_hh_mm_ss self
              (a_ButtonTimer (ButtonTimer_new "one" 1704200000)) 1704203761 w
              eq_refl R (or_introl eq_refl)) as (self' & E & _).
  exists self'. exact E.
Defined.

Lemma update_changes_only_selected_timer_witness :
  let self := TimerDisplay_new four_button_timers 4 ACTION_BUTTON in
  let w := steady_world 1704200100 (ok_exchange JNull) action_held in
  let self' :=
    set_lastSeconds
      (set_lastName
         (set_lastButtonState
            (set_current self (a_ButtonTimer (ButtonTimer_new "one" 1704200100)))
            LOW) "one") 0 in
  let w' := after_pins_and_lcd w 3
              [lcd_setCursor 0 1; lcd_print blank_line;
               lcd_clear; lcd_setCursor 0 0; lcd_print "one";
               lcd_setCursor 8 1; lcd_print "00:00:00"] in
  update self 1704200100 w = Done self' w' /\
  same_timers_except 0 self self' /\
  pin_reads w' = 3%nat.
Proof.
  intros self w self' w'.
  assert (P : update self 1704200100 w = Done self' w') by reflexivity.
  split; [exact P|].
  exact (proj2 (update_changes_only_selected_timer self self' 1704200100 w w' P)).
Defined.

Lemma update_on_button_timer_stays_offline_witness :
  let self := TimerDisplay_new four_button_timers 4 ACTION_BUTTON in
  let w := steady_world 1704200100 (ok_exchange JNull) down_held in
  let self' := set_currentIndex
                 (set_lastSeconds (set_lastName self "one") 100) 1 in
  let w' := after_pins_and_lcd w 3
              [lcd_clear; lcd_setCursor 0 0; lcd_print "one";
               lcd_setCursor 8 1; lcd_print "00:01:40"] in
  update self 1704200100 w = Done self' w' /\
  requests w' = requests w /\ wifi_reads w' = wifi_reads w.
Proof.
  intros self w self' w'.
  assert (P : update self 1704200100 w = Done self' w') by reflexivity.
  split; [exact P|].
  destruct (update_on_button_timer_stays_offline self self'
              (ButtonTimer_new "one" 1704200000) 1704200100 w w' eq_refl P)
    as (_ & A & B).
  split; [exact B | exact A].
Defined.

Lemma navigation_round_trips_witness :
  let self := set_currentIndex
                (TimerDisplay_new four_button_timers 4 ACTION_BUTTON) 1 in
  let w := steady_world 1704200100 (ok_exchange JNull) all_released in
  nextTimer self w = Done (set_currentIndex self 2) w /\
  bind (nextTimer self) previousTimer w = Done self w /\
  bind (previousTimer self) nextTimer w = Done self w.
Proof.
  intros self w.
  assert (HN : 1 <= timerCount self <= 255) by (cbn; lia).
  assert (Hi : 0 <= currentIndex self < timerCount self) by (cbn; lia).
  destruct (navigation_round_trips self w HN Hi) as (A & _ & B & D).
  split; [exact A|]. split.
  - apply B. cbn. lia.
  - apply D. cbn. lia.
Defined.

Lemma checkNavigationButtons_moves_by_pin_levels_witness :
  let self := set_currentIndex
                (TimerDisplay_new four_button_timers 4 ACTION_BUTTON) 1 in
  let w := steady_world 1704200100 (ok_exchange JNull) down_held in
  checkNavigationButtons self w
  = Done (set_currentIndex self 2) (after_pins_and_lcd w 2 []).
Proof.
  intros self w.
  apply (checkNavigationButtons_moves_by_pin_levels self w); cbn; lia.
Defined.


Lemma feed_check_undefined_on_non_string_timestamp_witness :
  let number := JNumber (float_of 5 0) in
  let wg := steady_world 1704200400
              (ok_exchange (JArray [JObject [("created_at", number)]]))
              all_released in
  let wb := steady_world 1704200400
              (ok_exchange
                 (JObject [("records",
                            JArray [JObject [("value",
                                              JObject [("createdAt", number)])]])]))
              all_released in
  shouldPoll sample_github 1704200400 = true /\
  poll sample_github wg = Undefined /\
  PollingTimer_checkPoll sample_github 1704200400 wg = Undefined /\
  (forall c, fails_with c sample_github wg = false) /\
  poll sample_bluesky wb = Undefined.
Proof.
  intros number wg wb.
  assert (D : shouldPoll sample_github 1704200400 = true) by reflexivity.
  destruct (proj1 (feed_check_undefined_on_non_string_timestamp sample_github wg
                     (JArray [JObject [("created_at", number)]]) 1704200400
                     eq_refl eq_refl eq_refl eq_refl eq_refl) eq_refl eq_refl)
    as (P & _ & Cp & Nc).
  destruct (proj1 (feed_check_undefined_on_non_string_timestamp sample_bluesky wb
                     (JObject [("records",
                                JArray [JObject [("value",
                                                  JObject [("createdAt", number)])]])])
                     1704200400
                     eq_refl eq_refl eq_refl eq_refl eq_refl) eq_refl eq_refl)
    as (Pb & _).
  split; [exact D|]. split; [exact P|]. split; [exact (Cp D)|].
  split; [exact Nc | exact Pb].
Defined.
